(** * Appcast updater: a shallow embedding of [updateAppcast.py]

    The development follows the layout of the Python module: the
    helpers of the Python runtime that the code calls ([str.split],
    [int], [str.rstrip], [os.path.basename], [sorted]), the lxml element
    tree as far as the code reads and writes it, exceptions and the
    file system as an explicit state, then the methods of
    [AppcastUpdater] in source order and [main], and finally the
    properties of the version comparator, the sorter and the update
    pipeline.

    Scope of the model.
    - Strings are byte strings.  A version component is read with the
      ASCII fragment of Python's [int]: non-ASCII decimal digits and
      the interpreter's limit on the number of digits are not
      represented.  lxml's test for XML-compatible strings is the one
      for ASCII text.
    - The XML parser, the serializer, SHA-256 and the text encoding
      of the locale are parameters ([Platform]).
    - The file system maps a path to a node; every I/O call is
      recorded in a trace.  A path is the text that reaches [open] or
      [stat]: the feed path is the text of the [Path] object, and a
      text with a NUL character names no node.  Only the writes of
      the program change the file system.  The clock is a field of
      the world.
    - A release is an [UpdateInfo] instance as its constructor leaves
      it.  [main] starts from the outcome of [parse_arguments]: the
      namespace, or the exit status of [argparse].
    - Logging calls are left out, and so is [get_file_size], which
      nothing calls.
    - Facts about lxml that the model relies on: [Element.set] and the
      [text] setter validate their string argument and raise
      [ValueError] on a control character; [Element.set] accepts only a
      string as value and raises [TypeError] on a [CDATA] object;
      [CDATA(None)] raises [TypeError]; [find] returns [None] when no
      child has the tag. *)

From Stdlib Require Import ZArith Lia Ascii String.
From Stdlib.Strings Require Import Byte.
From stdpp Require Import base option list sorting strings gmap.

Local Open Scope Z_scope.
#[local] Set Warnings "-register-all".

(** ** Python string helpers *)

Module PyStr.

(** [s.split(sep)] for a one-character separator: every occurrence of
    [sep] cuts, empty pieces are kept, the result is never empty. *)
Fixpoint split (sep : ascii) (s : string) : list string :=
  match s with
  | EmptyString => [EmptyString]
  | String c s' =>
      if Ascii.eqb c sep then EmptyString :: split sep s'
      else match split sep s' with
           | [] => [String c EmptyString]
           | w :: ws => String c w :: ws
           end
  end.

(** The characters that [int] skips around a number: TAB, LF, VT, FF,
    CR and SPACE.  The separators FS, GS, RS and US (codes 28 to 31)
    are not among them: [int('1\x1c')] raises [ValueError]. *)
Definition is_space (c : ascii) : bool :=
  let n := nat_of_ascii c in
  ((9 <=? n) && (n <=? 13) || (n =? 32))%nat.

Definition is_digit (c : ascii) : bool :=
  let n := nat_of_ascii c in ((48 <=? n) && (n <=? 57))%nat.

Definition digit_value (c : ascii) : Z := Z.of_nat (nat_of_ascii c - 48).

Fixpoint lstrip_spaces (l : list ascii) : list ascii :=
  match l with
  | c :: l' => if is_space c then lstrip_spaces l' else l
  | [] => []
  end.

Definition strip_spaces (l : list ascii) : list ascii :=
  rev (lstrip_spaces (rev (lstrip_spaces l))).

(** The digit part of a decimal literal: one or more digits, single
    underscores allowed between digits only.  [prev_digit] records
    whether the previous character was a digit. *)
Fixpoint digits (acc : Z) (prev_digit : bool) (l : list ascii) : option Z :=
  match l with
  | [] => if prev_digit then Some acc else None
  | c :: l' =>
      if is_digit c then digits (10 * acc + digit_value c) true l'
      else if Ascii.eqb c "_" then
             if prev_digit then digits acc false l' else None
      else None
  end.

(** [int(s)] in base 10: surrounding whitespace is dropped, one optional
    sign, then the digit part.  [None] stands for [ValueError]. *)
Definition int (s : string) : option Z :=
  match strip_spaces (list_ascii_of_string s) with
  | c :: l =>
      if Ascii.eqb c "-" then Z.opp <$> digits 0 false l
      else if Ascii.eqb c "+" then digits 0 false l
      else digits 0 false (c :: l)
  | [] => None
  end.

(** [s.rstrip(c)] for a one-character set. *)
Fixpoint lstrip_char (c : ascii) (l : list ascii) : list ascii :=
  match l with
  | d :: l' => if Ascii.eqb d c then lstrip_char c l' else l
  | [] => []
  end.

Definition rstrip (c : ascii) (s : string) : string :=
  string_of_list_ascii (rev (lstrip_char c (rev (list_ascii_of_string s)))).

(** [os.path.basename(p)] on POSIX: what follows the last slash. *)
Fixpoint basename (p : string) : string :=
  match p with
  | EmptyString => EmptyString
  | String c p' =>
      if Ascii.eqb c "/" then basename p'
      else if existsb (Ascii.eqb "/") (list_ascii_of_string p') then basename p'
      else p
  end.

(** [needle in s] *)
Fixpoint contains (needle s : string) : bool :=
  String.prefix needle s ||
  match s with
  | EmptyString => false
  | String _ s' => contains needle s'
  end.

(** A NUL character in a path: [open] and [stat] raise [ValueError]
    ("embedded null byte") before the operating system is asked. *)
Definition has_nul (path : string) : bool :=
  existsb (Ascii.eqb "000") (list_ascii_of_string path).

End PyStr.

(** ** Version tuples *)

(** A parsed version is a Python tuple of integers. *)
Definition version_tuple := list Z.

(** Python's [<] on tuples: the first position where the two differ
    decides; when one is a prefix of the other the shorter is smaller. *)
Fixpoint tuple_ltb (a b : version_tuple) : bool :=
  match a, b with
  | [], [] => false
  | [], _ :: _ => true
  | _ :: _, [] => false
  | x :: a', y :: b' => if x =? y then tuple_ltb a' b' else x <? y
  end.

(** [version_to_tuple]: [None] is the Python value [None], on which
    [.split] raises [AttributeError]; a component that [int] rejects
    raises [ValueError]; both handlers return [(0, 0)]. *)
Definition version_to_tuple (version_str : option string) : version_tuple :=
  match version_str with
  | None => [0; 0]
  | Some s =>
      match mapM PyStr.int (PyStr.split "." s) with
      | Some t => t
      | None => [0; 0]
      end
  end.

(** ** Exceptions *)

(** The exception classes that the module raises or handles.
    [AppcastError msg cause] is [AppcastError(f"{msg}: {cause}")]. *)
Inductive exn : Type :=
  | OSError
  | ParseError
  | AttributeError
  | TypeError
  | ValueError
  | AppcastError (msg : string) (cause : exn).

(** A computation without side effects that returns or raises. *)
Definition result (A : Type) : Type := exn + A.

Definition ok {A} (a : A) : result A := inr a.
Definition throw {A} (e : exn) : result A := inl e.

(** Sequencing: [let* x := c in k] runs [c], binds its value to [x]
    and goes on with [k]; an exception of [c] ends the sequence. *)
Class Bind (T : Type → Type) : Type :=
  bind : ∀ {A B : Type}, T A → (A → T B) → T B.

Notation "'let*' x ':=' c 'in' k" := (bind c (λ x, k))
  (at level 10, x name, c at level 200, k at level 200).

#[global] Instance result_bind : Bind result := λ A B c k,
  match c with
  | inl e => inl e
  | inr a => k a
  end.

(** A [for] loop that updates one value and stops at the first exception. *)
Fixpoint for_each {A S} (body : A → S → result S) (l : list A) (s : S) : result S :=
  match l with
  | [] => ok s
  | a :: l' => let* s' := body a s in for_each body l' s'
  end.

(** ** Python dictionaries with string keys

    A dictionary keeps its keys in insertion order; so do the attributes
    of an element.  [assoc_set] is [d[k] = v]: the value of an existing
    key is replaced in place, a new key goes to the end. *)
Fixpoint assoc_set (k v : string) (l : list (string * string)) : list (string * string) :=
  match l with
  | [] => [(k, v)]
  | (k', v') :: l' =>
      if String.eqb k' k then (k, v) :: l' else (k', v') :: assoc_set k v l'
  end.

Fixpoint assoc_get (k : string) (l : list (string * string)) : option string :=
  match l with
  | [] => None
  | (k', v) :: l' => if String.eqb k' k then Some v else assoc_get k l'
  end.

(** ** The lxml element tree *)

Module Etree.

(** Text of an element: absent, character data, or a CDATA section. *)
Inductive node_text : Type :=
  | NoText
  | Text (s : string)
  | CDataText (s : string).

(** An element: tag and attribute names in Clark notation
    ([{namespace}local]), the namespace prefixes declared on it,
    attributes in document order.  Tail text, comments and processing
    instructions are not represented: no function of the module reads
    or writes them, and a tag lookup never matches them. *)
Inductive element : Type :=
  Element { tag : string;
            nsmap : list (option string * string);
            attrib : list (string * string);
            text : node_text;
            children : list element }.

(** Python values that the module hands to lxml setters. *)
Inductive pyvalue : Type :=
  | PyNone
  | PyStr (s : string)
  | PyCDATA (s : string).

(** lxml accepts a string only if it is XML compatible: no control
    character other than TAB, LF and CR. *)
Definition xml_char (c : ascii) : bool :=
  let n := nat_of_ascii c in
  ((32 <=? n) || (n =? 9) || (n =? 10) || (n =? 13))%nat.

Definition xml_compatible (s : string) : bool :=
  forallb xml_char (list_ascii_of_string s).

(** [etree.Element(tag)] *)
Definition new (t : string) : element :=
  {| tag := t; nsmap := []; attrib := []; text := NoText; children := [] |}.

(** [parent.append(child)] *)
Definition append (parent child : element) : element :=
  {| tag := tag parent; nsmap := nsmap parent; attrib := attrib parent;
     text := text parent;
     children := children parent ++ [child] |}.

(** [CDATA(data)]: the argument must be a string ([TypeError]), XML
    compatible and free of the CDATA terminator ([ValueError]). *)
Definition CDATA (data : option string) : result pyvalue :=
  match data with
  | None => throw TypeError
  | Some s =>
      if negb (xml_compatible s) then throw ValueError
      else if PyStr.contains "]]>" s then throw ValueError
      else ok (PyCDATA s)
  end.

(** [elem.text = v] *)
Definition set_text (elem : element) (v : pyvalue) : result element :=
  let* t :=
    match v with
    | PyNone => ok NoText
    | PyStr s => if xml_compatible s then ok (Text s) else throw ValueError
    | PyCDATA s => ok (CDataText s)
    end in
  ok {| tag := tag elem; nsmap := nsmap elem; attrib := attrib elem;
        text := t; children := children elem |}.

(** [elem.text] *)
Definition get_text (elem : element) : option string :=
  match text elem with
  | NoText => None
  | Text s => Some s
  | CDataText s => Some s
  end.

(** [elem.set(key, v)]: an attribute value must be a string; any other
    object, a [CDATA] object included, raises [TypeError]. *)
Definition set (elem : element) (key : string) (v : pyvalue) : result element :=
  match v with
  | PyStr s =>
      if xml_compatible s then
        ok {| tag := tag elem; nsmap := nsmap elem;
              attrib := assoc_set key s (attrib elem);
              text := text elem; children := children elem |}
      else throw ValueError
  | PyNone | PyCDATA _ => throw TypeError
  end.

(** [elem.get(key, default)] *)
Definition get (elem : element) (key default : string) : string :=
  match assoc_get key (attrib elem) with
  | Some v => v
  | None => default
  end.

Definition has_tag (t : string) (e : element) : bool := String.eqb (tag e) t.

(** [elem.findall(t)] and [elem.find(t)] for a plain tag name: the
    children with that tag, in document order; the first of them. *)
Definition findall (t : string) (elem : element) : list element :=
  List.filter (has_tag t) (children elem).

Definition find (t : string) (elem : element) : option element :=
  head (findall t elem).

(** [for c in elem.findall(t): elem.remove(c)] *)
Definition remove_all (t : string) (elem : element) : element :=
  {| tag := tag elem; nsmap := nsmap elem; attrib := attrib elem;
     text := text elem;
     children := List.filter (fun c => negb (has_tag t c)) (children elem) |}.

(** The tree after a child found with [find(t)] has been mutated
    through its alias: the first child with tag [t] is replaced. *)
Fixpoint replace_first (t : string) (c' : element) (l : list element) : list element :=
  match l with
  | [] => []
  | c :: l' => if has_tag t c then c' :: l' else c :: replace_first t c' l'
  end.

Definition with_child (t : string) (c' : element) (elem : element) : element :=
  {| tag := tag elem; nsmap := nsmap elem; attrib := attrib elem;
     text := text elem;
     children := replace_first t c' (children elem) |}.

(** [c = etree.SubElement(parent, t); c.text = v] *)
Definition sub_element_text (parent : element) (t : string) (v : pyvalue) : result element :=
  let* c := set_text (new t) v in ok (append parent c).

End Etree.

(** ** Python's [sorted] *)

Section PySorted.

Context {A : Type} (key : A → version_tuple).

(** Stable ascending insertion: [x] stood before every element of [l]
    and goes in front of the first element that is not smaller. *)
Fixpoint insert_asc (x : A) (l : list A) : list A :=
  match l with
  | [] => [x]
  | y :: l' => if tuple_ltb (key y) (key x) then y :: insert_asc x l' else x :: l
  end.

Definition sort_asc (l : list A) : list A := foldr insert_asc [] l.

(** [sorted(l, key=key, reverse=r)].  The sort is stable and
    compares keys with [<] only; with [reverse=True] the list is reversed,
    sorted and reversed again, which keeps equal keys in input order. *)
Definition py_sorted (l : list A) (r : bool) : list A :=
  if r then reverse (sort_asc (reverse l)) else sort_asc l.

End PySorted.

(** ** The platform: lxml's parser and serializer, hashlib *)

(** The XML parser and serializer and SHA-256 are library code.
    [etree_parse] is [etree.parse] with [XMLParser(remove_blank_text=True)]
    applied to the bytes of a file ([None]: the bytes are not well-formed
    XML, [XMLSyntaxError]); [etree_tostring] is [etree.tostring] with
    [encoding='utf-8', xml_declaration=True, pretty_print=True].
    [locale_encode] is what a file opened in text mode without an
    encoding makes of a text, given here by its UTF-8 bytes: the bytes
    of the text in the encoding of the locale, with the line ends of
    the platform, or [None] when the text has a character that the
    encoding lacks. *)
Class Platform : Type := {
  etree_parse : list byte → option Etree.element;
  etree_tostring : Etree.element → list byte;
  locale_encode : list byte → option (list byte);
  sha256 : Type;
  sha256_new : sha256;
  sha256_update : sha256 → list byte → sha256;
  sha256_hexdigest : sha256 → string
}.

(** ** The world: file system, clock and a record of the I/O done *)

Inductive fnode : Type :=
  | File (data : list byte)
  | Unreadable
  | Inaccessible.

Inductive event : Type :=
  | EvExists (path : string)
  | EvParse (path : string)
  | EvOpenRead (path : string)
  | EvWrite (path : string).

(** [files] maps a path to its node.  [Unreadable] is a node that
    exists but cannot be opened for reading, such as a directory or a
    file without permission.  [Inaccessible] stands at a path that the
    operating system refuses to look up, with an error other than
    "not found" (a name that is too long, a directory on the way that
    may not be searched): [stat] and [open] raise [OSError] there.  A
    path without a node is one that the lookup reports as not found; a
    path with a NUL character never reaches the operating system and
    names no node.

    [locked] holds the paths that cannot be opened for writing.  [room]
    gives, for a path on a device with limited space, the number of
    bytes that can still be written to it: a longer write stores that
    many bytes and then fails.  [now] is the local time already
    formatted by [strftime]; [trace] lists the I/O operations called so
    far, the most recent first. *)
Record world : Type := World {
  files : gmap string fnode;
  locked : gset string;
  room : gmap string nat;
  now : string;
  trace : list event
}.

(** A method body: reads and changes the world, returns or raises.
    The world survives an exception. *)
Definition M (A : Type) : Type := world → result A * world.

Definition ret {A} (a : A) : M A := λ w, (inr a, w).

#[global] Instance M_bind : Bind M := λ A B c k w,
  match c w with
  | (inl e, w') => (inl e, w')
  | (inr a, w') => k a w'
  end.

Definition raise {A} (e : exn) : M A := λ w, (inl e, w).

Definition lift {A} (r : result A) : M A := λ w, (r, w).

Definition get_world : M world := λ w, (inr w, w).

Definition put_files (fs : gmap string fnode) : M unit := λ w,
  (inr tt, {| files := fs; locked := locked w; room := room w; now := now w;
              trace := trace w |}).

Definition log (ev : event) : M unit := λ w,
  (inr tt, {| files := files w; locked := locked w; room := room w; now := now w;
              trace := ev :: trace w |}).

(** [try: c  except <classes> as e: raise AppcastError(f"{msg}: {e}")] *)
Definition wrap_errors {A} (catches : exn → bool) (msg : string) (c : M A) : M A := λ w,
  match c w with
  | (inl e, w') => if catches e then (inl (AppcastError msg e), w') else (inl e, w')
  | (inr a, w') => (inr a, w')
  end.

(** Exception classes named in the handlers.  [IOError] is [OSError];
    [AppcastError] derives from [Exception] only. *)
Definition is_OSError (e : exn) : bool :=
  match e with OSError => true | _ => false end.

Definition is_ParseError (e : exn) : bool :=
  match e with ParseError => true | _ => false end.

Definition is_Exception (e : exn) : bool := true.

(** [Path.exists]: [stat] with the "not found" errors (and the
    [ValueError] of a NUL character) turned into [False]; any other
    [OSError] is raised. *)
Definition path_exists (path : string) : M bool :=
  let* _ := log (EvExists path) in
  let* w := get_world in
  match files w !! path with
  | Some Inaccessible => raise OSError
  | Some (File _) | Some Unreadable => ret true
  | None => ret false
  end.

(** [etree.parse(path, parser).getroot()] *)
Definition parse_file `{Platform} (path : string) : M Etree.element :=
  let* _ := log (EvParse path) in
  let* w := get_world in
  match files w !! path with
  | Some (File data) =>
      match etree_parse data with
      | Some root => ret root
      | None => raise ParseError
      end
  | Some Unreadable | Some Inaccessible | None => raise OSError
  end.

(** [open(path, 'rb')] followed by reading to the end of the file.
    A path with a NUL character is refused by [open] itself, with
    [ValueError]; every failure of the operating system is an
    [OSError]. *)
Definition open_rb (path : string) : M (list byte) :=
  let* _ := log (EvOpenRead path) in
  let* w := get_world in
  match files w !! path with
  | Some (File data) => ret data
  | Some Unreadable | Some Inaccessible => raise OSError
  | None => if PyStr.has_nul path then raise ValueError else raise OSError
  end.

(** [path.write_text(text)] for the text that [data] holds in UTF-8.
    [open] with mode ['w'] refuses a NUL character with [ValueError],
    fails with [OSError] on a path that cannot be opened, and otherwise
    empties the file.  The text is then encoded for the locale: text
    that cannot be encoded raises [UnicodeEncodeError], a [ValueError],
    and the file stays empty.  A write that the device cannot take in
    full stores what fits and raises [OSError]. *)
Definition write_text `{Platform} (path : string) (data : list byte) : M unit :=
  let* _ := log (EvWrite path) in
  let* w := get_world in
  if PyStr.has_nul path then raise ValueError
  else if bool_decide (path ∈ locked w) then raise OSError
  else
    match locale_encode data with
    | None =>
        let* _ := put_files (<[path := File []]> (files w)) in
        raise ValueError
    | Some encoded =>
        match room w !! path with
        | Some n =>
            if (n <? length encoded)%nat
            then let* _ := put_files (<[path := File (take n encoded)]> (files w)) in
                 raise OSError
            else put_files (<[path := File encoded]> (files w))
        | None => put_files (<[path := File encoded]> (files w))
        end
    end.

(** [datetime.datetime.now().strftime(...)] *)
Definition strftime_now : M string := let* w := get_world in ret (now w).

(** The blocks that [iter(lambda: f.read(n), b'')] yields; [fuel]
    bounds the number of reads, and the length of the data is enough. *)
Fixpoint read_blocks (fuel : nat) (n : nat) (data : list byte) : list (list byte) :=
  match fuel, data with
  | S fuel', _ :: _ => take n data :: read_blocks fuel' n (drop n data)
  | _, _ => []
  end.

(** ** The module *)

Record UpdateInfo : Type := {
  version : string;
  dmg_path : string;
  release_notes : string;
  file_size : string;
  signature : string
}.

(** [update_info.name].  The dataclass declares the five fields above
    and no [name]; an instance as its constructor leaves it has no such
    attribute, and the read raises [AttributeError]. *)
Definition UpdateInfo_name (update_info : UpdateInfo) : result string :=
  throw AttributeError.

Definition UpdateInfo_fields : list string :=
  ["version"; "dmg_path"; "release_notes"; "file_size"; "signature"]%string.

(** The generated [__init__] called with keyword arguments: a keyword
    that is not a field, or a field without a value, raises
    [TypeError]. *)
Definition UpdateInfo_init (kwargs : list (string * string)) : result UpdateInfo :=
  if forallb (λ kv, existsb (String.eqb kv.1) UpdateInfo_fields) kwargs then
    match assoc_get "version" kwargs, assoc_get "dmg_path" kwargs,
          assoc_get "release_notes" kwargs, assoc_get "file_size" kwargs,
          assoc_get "signature" kwargs with
    | Some v, Some d, Some r, Some f, Some s =>
        ok {| version := v; dmg_path := d; release_notes := r;
              file_size := f; signature := s |}
    | _, _, _, _, _ => throw TypeError
    end
  else throw TypeError.

Record AppcastUpdater : Type := {
  appcast_path : string;
  base_url : string
}.

Definition SPARKLE_NS : string :=
  "http://www.andymatuschak.org/xml-namespaces/sparkle".

Definition NAMESPACES : list (option string * string) :=
  [(Some "sparkle", SPARKLE_NS); (None, "")]%string.

(** [f'{{{self.SPARKLE_NS}}}{key}'] *)
Definition sparkle (key : string) : string :=
  ("{" +:+ SPARKLE_NS +:+ "}" +:+ key)%string.

(** [AppcastUpdater.__init__] *)
Definition AppcastUpdater_init (appcast_path base_url : string) : AppcastUpdater :=
  {| appcast_path := appcast_path; base_url := PyStr.rstrip "/" base_url |}.

Section Updater.

Context `{Platform}.

(** [calculate_file_hash] *)
Definition calculate_file_hash (self : AppcastUpdater) (file_path : string) : M string :=
  wrap_errors is_OSError "Failed to calculate file hash"
    (let* data := open_rb file_path in
     ret (sha256_hexdigest
             (foldl sha256_update sha256_new (read_blocks (length data) 4096 data)))).

(** [create_or_load_xml].  In the fresh branch the three header fields
    are written in the order of the [channel_info] dictionary, whose
    construction reads [update_info.name]. *)
Definition create_or_load_xml (self : AppcastUpdater) (update_info : UpdateInfo) : M Etree.element :=
  wrap_errors (λ e, is_ParseError e || is_OSError e) "Failed to create/load XML"
    (let* present := path_exists (appcast_path self) in
     if present then parse_file (appcast_path self)
     else
       let root := {| Etree.tag := "rss"; Etree.nsmap := NAMESPACES;
                      Etree.attrib := [("version", "2.0")]%string;
                      Etree.text := Etree.NoText; Etree.children := [] |} in
       let channel := Etree.new "channel" in
       let* name := lift (UpdateInfo_name update_info) in
       let* channel := lift (for_each
                         (λ (field : string * string) channel,
                            let '(tag, text) := field in
                            Etree.sub_element_text channel tag (Etree.PyStr text))
                         [("title", name +:+ " Updates");
                          ("description", "Most recent updates to " +:+ name);
                          ("language", "en")]%string
                         channel) in
       ret (Etree.append root channel)).

(** [create_enclosure]: returns [item] with the enclosure appended. *)
Definition create_enclosure (self : AppcastUpdater) (item : Etree.element)
    (update_info : UpdateInfo) (file_hash : string) : result Etree.element :=
  let enclosure := Etree.new "enclosure" in
  let* enclosure := Etree.set enclosure "url"
    (Etree.PyStr (base_url self +:+ "/" +:+ PyStr.basename (dmg_path update_info))) in
  let* enclosure := Etree.set enclosure "length" (Etree.PyStr (file_size update_info)) in
  let* enclosure := Etree.set enclosure "type" (Etree.PyStr "application/x-apple-diskimage") in
  let* enclosure := for_each
    (λ (attr : string * string) enclosure,
       let '(key, value) := attr in
       Etree.set enclosure (sparkle key) (Etree.PyStr value))
    [("version", version update_info);
     ("shortVersionString", version update_info);
     ("sha256", file_hash);
     ("edSignature", signature update_info);
     ("length", file_size update_info)]%string
    enclosure in
  ok (Etree.append item enclosure).

(** The sort key of [sort_items]. *)
Definition get_version (item : Etree.element) : version_tuple :=
  match Etree.find "enclosure" item with
  | Some enclosure =>
      version_to_tuple (Some (Etree.get enclosure (sparkle "version") "0.0"))
  | None => [0; 0]
  end.

(** [sort_items] *)
Definition sort_items (channel : Etree.element) : list Etree.element :=
  let items := Etree.findall "item" channel in
  match items with
  | [] => []
  | _ :: _ => py_sorted get_version items true
  end.

(** One round of the loop that puts the sorted items back: the
    [description] child is looked up ([None.text] raises
    [AttributeError]), its text wrapped in [CDATA] and handed to
    [set], and the item is appended. *)
Definition readd_item (sorted_item channel : Etree.element) : result Etree.element :=
  match Etree.find "description" sorted_item with
  | None => throw AttributeError
  | Some description =>
      let* cdata := Etree.CDATA (Etree.get_text description) in
      let* sorted_item := Etree.set sorted_item "description" cdata in
      ok (Etree.append channel sorted_item)
  end.

(** The loop over the sorted items.  The channel is a mutable object:
    the value it has reached is returned also when a round raises. *)
Fixpoint readd_items (items : list Etree.element) (channel : Etree.element)
    : result unit * Etree.element :=
  match items with
  | [] => (inr tt, channel)
  | sorted_item :: items' =>
      match readd_item sorted_item channel with
      | inl e => (inl e, channel)
      | inr channel' => readd_items items' channel'
      end
  end.

(** The reordering step of [add_update]: sort, remove every item,
    put the items back in sorted order. *)
Definition reorder_items (channel : Etree.element) : result unit * Etree.element :=
  match sort_items channel with
  | [] => (inr tt, channel)
  | items => readd_items items (Etree.remove_all "item" channel)
  end.

(** [write_xml]: [xml_str.decode('utf-8')] gives back the text that
    [etree.tostring] encoded, and [write_text] takes it. *)
Definition write_xml (self : AppcastUpdater) (root : Etree.element) : M unit :=
  wrap_errors is_OSError "Failed to write XML file"
    (write_text (appcast_path self) (etree_tostring root)).

(** The [try] block of [add_update].  The new item is a child of the
    channel from the moment it is created; the tree is local to the
    call, so the item is built first and appended with its final
    content.  [etree.SubElement(None, 'item')] raises [TypeError]. *)
Definition add_update_body (self : AppcastUpdater) (update_info : UpdateInfo) : M unit :=
  let* root := create_or_load_xml self update_info in
  match Etree.find "channel" root with
  | None => raise TypeError
  | Some channel =>
      let item := Etree.new "item" in
      let* item := lift (Etree.sub_element_text item "title"
                     (Etree.PyStr ("Version " +:+ version update_info))) in
      let* pub_date := strftime_now in
      let* item := lift (Etree.sub_element_text item "pubDate" (Etree.PyStr pub_date)) in
      let* file_hash := calculate_file_hash self (dmg_path update_info) in
      let* item := lift (create_enclosure self item update_info file_hash) in
      let* item := lift (for_each
                     (λ elem_name item,
                        Etree.sub_element_text item (sparkle elem_name)
                          (Etree.PyStr (version update_info)))
                     ["version"; "shortVersionString"]%string
                     item) in
      let* notes := lift (Etree.CDATA (Some (release_notes update_info))) in
      let* item := lift (Etree.sub_element_text item "description" notes) in
      match reorder_items (Etree.append channel item) with
      | (inl e, _) => raise e
      | (inr _, channel) => write_xml self (Etree.with_child "channel" channel root)
      end
  end.

(** [add_update] *)
Definition add_update (self : AppcastUpdater) (update_info : UpdateInfo) : M unit :=
  wrap_errors is_Exception "Failed to add update" (add_update_body self update_info).

End Updater.

(** [parse_arguments] *)
Module Args.

Record Namespace : Type := {
  name : string;
  version : string;
  size : string;
  dmg : string;
  signature : string;
  notes : string;
  output : string;
  base_url : string
}.

(** What the call [parse_arguments()] does with the command line: it
    returns the namespace, or [argparse] leaves through [SystemExit]
    with its status, 2 for a command line it rejects and 0 after
    [--help]. *)
Inductive outcome : Type :=
  | Parsed (args : Namespace)
  | SystemExit (status : Z).

End Args.

Coercion Args.Parsed : Args.Namespace >-> Args.outcome.

(** [main]: the exit status of the process.  [SystemExit] is no
    [Exception]: neither handler catches it and the process ends with
    the status of [argparse].  Both handlers log and call [exit(1)];
    falling off the end is status 0. *)
Definition main `{Platform} (command_line : Args.outcome) (w : world) : Z * world :=
  match command_line with
  | Args.SystemExit status => (status, w)
  | Args.Parsed args =>
      let run : M unit :=
        let* update_info := lift (UpdateInfo_init
                              [("name", Args.name args);
                               ("version", Args.version args);
                               ("dmg_path", Args.dmg args);
                               ("release_notes", Args.notes args);
                               ("file_size", Args.size args);
                               ("signature", Args.signature args)]%string) in
        add_update (AppcastUpdater_init (Args.output args) (Args.base_url args))
          update_info in
      match run w with
      | (inr _, w') => (0, w')
      | (inl _, w') => (1, w')
      end
  end.

(** ** Vocabulary of the properties *)

(** A version string is well-formed when [int] accepts each of its
    dot-separated components. *)
Definition well_formed (s : string) : bool :=
  forallb (λ c, bool_decide (is_Some (PyStr.int c))) (PyStr.split "." s).

(** The integer components of a well-formed version string. *)
Definition components (s : string) (cs : list Z) : Prop :=
  Forall2 (λ c z, PyStr.int c = Some z) (PyStr.split "." s) cs.

(** Numeric component-wise order with the shorter-is-less policy, in the
    words of the specification: a sequence is less than another when it
    is a proper prefix of it, or when at the first position where they
    differ its component is the smaller integer. *)
Inductive numeric_lt : list Z → list Z → Prop :=
  | numeric_lt_shorter (p : list Z) (y : Z) (ys : list Z) :
      numeric_lt p (p ++ y :: ys)
  | numeric_lt_component (p : list Z) (x y : Z) (xs ys : list Z) :
      x < y → numeric_lt (p ++ x :: xs) (p ++ y :: ys).

(** The integer that a component stands for, stated apart from the
    reader [PyStr.int]: decimal notation, as the row of the ten digits
    and the positional rule.  The value of a digit is its place in the
    row. *)
Fixpoint place_of (c : ascii) (row : list ascii) : option Z :=
  match row with
  | [] => None
  | d :: row' => if Ascii.eqb c d then Some 0 else Z.succ <$> place_of c row'
  end.

Definition digit_of (c : ascii) : option Z :=
  place_of c (list_ascii_of_string "0123456789").

(** A numeral is a digit, or a numeral followed by a digit, with one
    underscore allowed in between; appending a digit multiplies the
    number by ten and adds the digit. *)
Inductive numeral : list ascii → Z → Prop :=
  | numeral_digit (c : ascii) (d : Z) :
      digit_of c = Some d → numeral [c] d
  | numeral_next (l : list ascii) (n : Z) (c : ascii) (d : Z) :
      numeral l n → digit_of c = Some d → numeral (l ++ [c]) (10 * n + d)
  | numeral_underscore (l : list ascii) (n : Z) (c : ascii) (d : Z) :
      numeral l n → digit_of c = Some d → numeral (l ++ ["_"; c]%char) (10 * n + d).

(** An optional sign in front. *)
Inductive signed_numeral : list ascii → Z → Prop :=
  | signed_plain (l : list ascii) (n : Z) : numeral l n → signed_numeral l n
  | signed_plus (l : list ascii) (n : Z) : numeral l n → signed_numeral ("+"%char :: l) n
  | signed_minus (l : list ascii) (n : Z) : numeral l n → signed_numeral ("-"%char :: l) (- n).

(** Blank characters: SPACE, TAB, LF, VT, FF and CR. *)
Definition blank (c : ascii) : Prop :=
  c ∈ [" "; "009"; "010"; "011"; "012"; "013"]%char.

(** [denotes s z]: the string [s] is a signed numeral for the integer
    [z], possibly with blanks before and after it. *)
Inductive denotes (s : string) (z : Z) : Prop :=
  | denotes_intro (before l behind : list ascii) :
      list_ascii_of_string s = before ++ l ++ behind →
      Forall blank before → Forall blank behind →
      signed_numeral l z →
      denotes s z.

(** The version string of an entry: the [sparkle:version] attribute of
    its first enclosure, if there is one. *)
Definition entry_version (item : Etree.element) : option string :=
  match Etree.find "enclosure" item with
  | Some enclosure => assoc_get (sparkle "version") (Etree.attrib enclosure)
  | None => None
  end.

(** A missing or ill-formed version. *)
Definition malformed (v : option string) : Prop :=
  match v with
  | None => True
  | Some s => well_formed s = false
  end.

(** Order of a sequence of entries by parsed version: every entry is
    followed only by entries that are not greater ([descending]), or
    only by entries that are smaller ([strictly_descending]). *)
Definition descending (l : list Etree.element) : Prop :=
  StronglySorted (λ a b, tuple_ltb (get_version a) (get_version b) = false) l.

Definition strictly_descending (l : list Etree.element) : Prop :=
  StronglySorted (λ a b, tuple_ltb (get_version b) (get_version a) = true) l.

(** The world after the I/O operations [evs] (the most recent first),
    none of which changed the file system. *)
Definition after (evs : list event) (w : world) : world :=
  {| files := files w; locked := locked w; room := room w; now := now w;
     trace := evs ++ trace w |}.

Definition is_write (ev : event) : bool :=
  match ev with EvWrite _ => true | _ => false end.

Definition is_open_read (ev : event) : bool :=
  match ev with EvOpenRead _ => true | _ => false end.

Definition no_write (evs : list event) : Prop :=
  Forall (λ ev, is_write ev = false) evs.

(** The I/O operations done between the world [w] and the later world
    [w'], the most recent first. *)
Definition events_since (w w' : world) : list event :=
  take (length (trace w') - length (trace w)) (trace w').

(** A computation that leaves the file system as it is, whatever it
    returns or raises. *)
Definition quiet {A} (c : M A) : Prop :=
  ∀ w, ∃ r evs, c w = (r, after evs w) ∧ no_write evs.

(** A computation that always raises and leaves the file system as it
    is. *)
Definition aborts {A} (c : M A) : Prop :=
  ∀ w, ∃ e evs, c w = (inl e, after evs w) ∧ no_write evs.

(** ** Vocabulary of the further properties *)

(** The strings that [create_enclosure] stores as attribute values. *)
Definition download_url (self : AppcastUpdater) (update_info : UpdateInfo) : string :=
  base_url self +:+ "/" +:+ PyStr.basename (dmg_path update_info).

Definition enclosure_strings_ok (self : AppcastUpdater) (update_info : UpdateInfo)
    (file_hash : string) : bool :=
  Etree.xml_compatible (download_url self update_info) &&
  Etree.xml_compatible (file_size update_info) &&
  Etree.xml_compatible (version update_info) &&
  Etree.xml_compatible file_hash &&
  Etree.xml_compatible (signature update_info).

(** The enclosure of a release: three plain attributes, then the five
    namespaced ones, in the order in which they are set. *)
Definition built_enclosure (self : AppcastUpdater) (update_info : UpdateInfo)
    (file_hash : string) : Etree.element :=
  {| Etree.tag := "enclosure"; Etree.nsmap := [];
     Etree.attrib :=
       [("url", download_url self update_info);
        ("length", file_size update_info);
        ("type", "application/x-apple-diskimage");
        (sparkle "version", version update_info);
        (sparkle "shortVersionString", version update_info);
        (sparkle "sha256", file_hash);
        (sparkle "edSignature", signature update_info);
        (sparkle "length", file_size update_info)]%string;
     Etree.text := Etree.NoText; Etree.children := [] |}.

(** An element that holds text only. *)
Definition text_element (t : string) (x : Etree.node_text) : Etree.element :=
  {| Etree.tag := t; Etree.nsmap := []; Etree.attrib := []; Etree.text := x;
     Etree.children := [] |}.

(** The entry of a release as [add_update] hands it to the reordering
    step: title, publication date, enclosure, the two version elements
    and the release notes as a CDATA section. *)
Definition built_entry (self : AppcastUpdater) (update_info : UpdateInfo)
    (pub_date file_hash : string) : Etree.element :=
  {| Etree.tag := "item"; Etree.nsmap := []; Etree.attrib := [];
     Etree.text := Etree.NoText;
     Etree.children :=
       [text_element "title" (Etree.Text ("Version " +:+ version update_info));
        text_element "pubDate" (Etree.Text pub_date);
        built_enclosure self update_info file_hash;
        text_element (sparkle "version") (Etree.Text (version update_info));
        text_element (sparkle "shortVersionString") (Etree.Text (version update_info));
        text_element "description" (Etree.CDataText (release_notes update_info))] |}.

(** Inputs that lxml accepts throughout the construction of an entry. *)
Definition valid_release (self : AppcastUpdater) (update_info : UpdateInfo)
    (pub_date file_hash : string) : bool :=
  Etree.xml_compatible pub_date &&
  enclosure_strings_ok self update_info file_hash &&
  Etree.xml_compatible (release_notes update_info) &&
  negb (PyStr.contains "]]>" (release_notes update_info)).

(** The world after a call of [write_text] that left [bytes] in the
    file at [path]. *)
Definition stored (path : string) (bytes : list byte) (w : world) : world :=
  {| files := <[path := File bytes]> (files w); locked := locked w; room := room w;
     now := now w; trace := EvWrite path :: trace w |}.

(** The digest that [calculate_file_hash] returns for a file content. *)
Definition digest_of `{Platform} (data : list byte) : string :=
  sha256_hexdigest (foldl sha256_update sha256_new (read_blocks (length data) 4096 data)).

(** A computation all of whose I/O operations satisfy [P] and leave the
    file system as it is ([performs]), and one that moreover always
    raises ([fails_performing]). *)
Definition performs {A} (P : event → Prop) (c : M A) : Prop :=
  ∀ w, ∃ r evs, c w = (r, after evs w) ∧ Forall P evs.

Definition fails_performing {A} (P : event → Prop) (c : M A) : Prop :=
  ∀ w, ∃ e evs, c w = (inl e, after evs w) ∧ Forall P evs.

(** A second platform: its parser knows one document, stored as the
    byte [3], whose root has no channel. *)
Module Sample2.

#[local] Instance platform : Platform := {|
  etree_parse data :=
    match data with
    | [x03] => Some (Etree.new "rss")
    | _ => None
    end%byte;
  etree_tostring _ := [x03]%byte;
  locale_encode data := Some data;
  sha256 := nat;
  sha256_new := 0%nat;
  sha256_update h block := (h + length block)%nat;
  sha256_hexdigest _ := "e3b0c442"
|}.

End Sample2.

(** ** Sample data *)

Module Sample.

Definition element (t : string) (a : list (string * string)) (x : Etree.node_text)
    (c : list Etree.element) : Etree.element :=
  {| Etree.tag := t; Etree.nsmap := []; Etree.attrib := a; Etree.text := x;
     Etree.children := c |}.

(** An entry with a version attribute and release notes. *)
Definition entry (v notes : string) : Etree.element :=
  element "item" [] Etree.NoText
    [element "enclosure" [(sparkle "version", v)] Etree.NoText [];
     element "description" [] (Etree.Text notes) []].

(** An entry without a [description] child. *)
Definition bare_entry (v : string) : Etree.element :=
  element "item" [] Etree.NoText
    [element "enclosure" [(sparkle "version", v)] Etree.NoText []].

Definition channel (entries : list Etree.element) : Etree.element :=
  element "channel" [] Etree.NoText
    (element "title" [] (Etree.Text "App Updates") [] :: entries).

Definition rss (entries : list Etree.element) : Etree.element :=
  element "rss" [("version", "2.0")]%string Etree.NoText [channel entries].

(** A platform small enough to run: the parser knows two documents,
    stored as the bytes [1] and [2], and rejects everything else. *)
#[local] Instance platform : Platform := {|
  etree_parse data :=
    match data with
    | [x01] => Some (rss [entry "1.0" "first"])
    | [x02] => Some (rss [bare_entry "1.0"])
    | _ => None
    end%byte;
  etree_tostring _ := [x01]%byte;
  locale_encode data := Some data;
  sha256 := nat;
  sha256_new := 0%nat;
  sha256_update h block := (h + length block)%nat;
  sha256_hexdigest _ := "e3b0c442"
|}.

Definition updater : AppcastUpdater :=
  AppcastUpdater_init "appcast.xml" "https://example.org/downloads/".

Definition release : UpdateInfo :=
  {| version := "1.0"; dmg_path := "build/App.dmg"; release_notes := "<p>Fixes</p>";
     file_size := "1024"; signature := "c2ln" |}.

Definition args : Args.Namespace :=
  {| Args.name := "App"; Args.version := "1.0"; Args.size := "1024";
     Args.dmg := "build/App.dmg"; Args.signature := "c2ln";
     Args.notes := "<p>Fixes</p>"; Args.output := "appcast.xml";
     Args.base_url := "https://example.org/downloads/" |}.

(** A world with the artifact and the given content of the feed file. *)
Definition world_with (feed : option fnode) (artifact : option fnode) : world :=
  {| files := from_option (λ n, {[ "appcast.xml"%string := n ]}) ∅ feed ∪
              from_option (λ n, {[ "build/App.dmg"%string := n ]}) ∅ artifact;
     locked := ∅; room := ∅; now := "Mon, 01 Jan 2024 00:00:00 +0000"; trace := [] |}.

End Sample.

(** * Properties *)

(** ** The order on version tuples *)

Lemma tuple_ltb_irrefl (a : version_tuple) : tuple_ltb a a = false.
Proof.
  induction a as [|x a IH]; simpl; [done|]. by rewrite Z.eqb_refl.
Qed.

Lemma tuple_ltb_asym (a b : version_tuple) :
  tuple_ltb a b = true → tuple_ltb b a = false.
Proof.
  revert b. induction a as [|x a IH]; intros [|y b]; simpl; try done.
  destruct (Z.eqb_spec x y) as [->|Hne].
  - rewrite Z.eqb_refl. apply IH.
  - destruct (Z.eqb_spec y x); [congruence|]. lia.
Qed.

Lemma tuple_ltb_trans (a b c : version_tuple) :
  tuple_ltb a b = true → tuple_ltb b c = true → tuple_ltb a c = true.
Proof.
  revert b c. induction a as [|x a IH]; intros [|y b] [|z c]; simpl; try done.
  repeat case Z.eqb_spec; intros; subst; try done; try lia.
  by eapply IH.
Qed.

(** Two tuples neither of which is below the other are equal. *)
Lemma tuple_ltb_total (a b : version_tuple) :
  tuple_ltb a b = false → tuple_ltb b a = false → a = b.
Proof.
  revert b. induction a as [|x a IH]; intros [|y b]; simpl; try done.
  destruct (Z.eqb_spec x y) as [->|Hxy].
  - rewrite Z.eqb_refl. intros ??. f_equal. by apply IH.
  - destruct (Z.eqb_spec y x); [congruence|]. lia.
Qed.

(** "Not below" is transitive. *)
Lemma tuple_geb_trans (a b c : version_tuple) :
  tuple_ltb a b = false → tuple_ltb b c = false → tuple_ltb a c = false.
Proof.
  intros Hab Hbc. destruct (tuple_ltb a c) eqn:Hac; [|done].
  destruct (tuple_ltb c b) eqn:Hcb.
  - by rewrite (tuple_ltb_trans a c b) in Hab.
  - rewrite <-(tuple_ltb_total b c) in Hac by done. congruence.
Qed.

(** [tuple_ltb] decides the order of the specification. *)
Lemma tuple_ltb_numeric_lt (a b : version_tuple) :
  tuple_ltb a b = true ↔ numeric_lt a b.
Proof.
  split.
  - revert b. induction a as [|x a IH]; intros [|y b]; simpl; try done.
    + intros _. apply (numeric_lt_shorter []).
    + destruct (Z.eqb_spec x y) as [->|Hxy].
      * intros Hlt. destruct (IH _ Hlt) as [p z zs|p u v us vs Huv].
        -- apply (numeric_lt_shorter (y :: p)).
        -- by apply (numeric_lt_component (y :: p)).
      * intros Hlt. apply (numeric_lt_component []). lia.
  - intros [p y ys|p x y xs ys Hxy].
    + induction p as [|z p IH]; simpl; [done|]. by rewrite Z.eqb_refl.
    + induction p as [|z p IH]; simpl.
      * destruct (Z.eqb_spec x y); lia.
      * by rewrite Z.eqb_refl.
Qed.

(** ** Python's [sorted] *)

Section PySortedFacts.

Context {A : Type} (key : A → version_tuple).

Lemma insert_asc_Permutation (x : A) (l : list A) :
  insert_asc key x l ≡ₚ x :: l.
Proof.
  induction l as [|y l IH]; simpl; [done|].
  destruct (tuple_ltb (key y) (key x)); [|done].
  rewrite IH. apply Permutation_swap.
Qed.

Lemma sort_asc_Permutation (l : list A) : sort_asc key l ≡ₚ l.
Proof.
  induction l as [|x l IH]; simpl; [done|].
  by rewrite insert_asc_Permutation, IH.
Qed.

Lemma insert_asc_sorted (x : A) (l : list A) :
  StronglySorted (λ a b, tuple_ltb (key b) (key a) = false) l →
  StronglySorted (λ a b, tuple_ltb (key b) (key a) = false) (insert_asc key x l).
Proof.
  induction l as [|y l IH]; simpl; intros Hl.
  { repeat constructor. }
  apply StronglySorted_cons in Hl as [Hy Hl].
  destruct (tuple_ltb (key y) (key x)) eqn:Hyx.
  - apply StronglySorted_cons. split; [|by apply IH].
    rewrite Forall_forall. intros z Hz.
    rewrite insert_asc_Permutation in Hz.
    apply elem_of_cons in Hz as [->|Hz].
    + by apply tuple_ltb_asym.
    + rewrite Forall_forall in Hy. by apply Hy.
  - apply StronglySorted_cons. split.
    + constructor; [done|].
      eapply Forall_impl; [exact Hy|]. simpl. intros z Hz.
      by apply tuple_geb_trans with (key y).
    + by apply StronglySorted_cons.
Qed.

Lemma sort_asc_sorted (l : list A) :
  StronglySorted (λ a b, tuple_ltb (key b) (key a) = false) (sort_asc key l).
Proof.
  induction l as [|x l IH]; simpl; [constructor|]. by apply insert_asc_sorted.
Qed.

(** Insertion is stable: among the elements with a given key the new
    element comes first, as it did in the input. *)
Lemma insert_asc_filter (k : version_tuple) (x : A) (l : list A) :
  filter (λ a, key a = k) (insert_asc key x l) = filter (λ a, key a = k) (x :: l).
Proof.
  induction l as [|y l IH]; simpl; [done|].
  destruct (tuple_ltb (key y) (key x)) eqn:Hyx; [|done].
  rewrite filter_cons, IH, !filter_cons.
  destruct (decide (key y = k)) as [Hy|Hy], (decide (key x = k)) as [Hx|Hx]; try done.
  rewrite Hy, Hx, tuple_ltb_irrefl in Hyx. done.
Qed.

Lemma sort_asc_filter (k : version_tuple) (l : list A) :
  filter (λ a, key a = k) (sort_asc key l) = filter (λ a, key a = k) l.
Proof.
  induction l as [|x l IH]; simpl; [done|].
  by rewrite insert_asc_filter, !filter_cons, IH.
Qed.

(** A list determines its stable sort: two lists that are sorted by
    key and hold, for every key, the same elements in the same order are
    equal.  So [sort_asc] stands for any stable sort that compares keys
    with [<], whatever its algorithm. *)
Lemma stable_sorted_unique (l1 l2 : list A) :
  StronglySorted (λ a b, tuple_ltb (key b) (key a) = false) l1 →
  StronglySorted (λ a b, tuple_ltb (key b) (key a) = false) l2 →
  (∀ k, filter (λ a, key a = k) l1 = filter (λ a, key a = k) l2) →
  l1 = l2.
Proof.
  revert l2. induction l1 as [|x l1 IH]; intros [|y l2] Hl1 Hl2 Hsame; [done|..].
  - specialize (Hsame (key y)). by rewrite filter_cons_True in Hsame.
  - specialize (Hsame (key x)). by rewrite filter_cons_True in Hsame.
  - apply StronglySorted_cons in Hl1 as [Hx Hl1], Hl2 as [Hy Hl2].
    rewrite Forall_forall in Hx, Hy.
    assert (key x = key y) as Hkey.
    { apply tuple_ltb_total.
      - assert (x ∈ y :: l2) as [->|Hin]%elem_of_cons.
        { eapply (list_elem_of_filter (λ a, key a = key x)).
          rewrite <-Hsame, filter_cons_True by done. left. }
        + apply tuple_ltb_irrefl.
        + by apply Hy.
      - assert (y ∈ x :: l1) as [->|Hin]%elem_of_cons.
        { eapply (list_elem_of_filter (λ a, key a = key y)).
          rewrite Hsame, filter_cons_True by done. left. }
        + apply tuple_ltb_irrefl.
        + by apply Hx. }
    pose proof (Hsame (key x)) as Hhead.
    rewrite filter_cons_True, (filter_cons_True _ y) in Hhead by done.
    injection Hhead as -> _. f_equal. apply IH; [done..|].
    intros k. specialize (Hsame k). rewrite !filter_cons in Hsame.
    destruct (decide (key y = k)); [by injection Hsame|done].
Qed.

Lemma sort_asc_unique (l l' : list A) :
  StronglySorted (λ a b, tuple_ltb (key b) (key a) = false) l' →
  (∀ k, filter (λ a, key a = k) l' = filter (λ a, key a = k) l) →
  l' = sort_asc key l.
Proof.
  intros Hsorted Hsame. apply stable_sorted_unique; [done|apply sort_asc_sorted|].
  intros k. by rewrite sort_asc_filter.
Qed.

Lemma StronglySorted_reverse (R : relation A) (l : list A) :
  StronglySorted R l → StronglySorted (flip R) (reverse l).
Proof.
  induction 1 as [|x l Hl IH Hx]; [constructor|].
  rewrite reverse_cons. apply StronglySorted_app_2.
  - intros y z Hy Hz. apply list_elem_of_singleton in Hz as ->.
    rewrite elem_of_reverse in Hy. rewrite Forall_forall in Hx. unfold flip. by apply Hx.
  - done.
  - apply StronglySorted_cons. split; constructor.
Qed.

Lemma py_sorted_Permutation (l : list A) (r : bool) : py_sorted key l r ≡ₚ l.
Proof.
  destruct r; simpl.
  - by rewrite reverse_Permutation, sort_asc_Permutation, reverse_Permutation.
  - apply sort_asc_Permutation.
Qed.

(** With [reverse=True] no element is followed by a greater one. *)
Lemma py_sorted_reverse_sorted (l : list A) :
  StronglySorted (λ a b, tuple_ltb (key a) (key b) = false) (py_sorted key l true).
Proof.
  simpl. apply (StronglySorted_reverse _ _ (sort_asc_sorted (reverse l))).
Qed.

(** The sort is stable also with [reverse=True]. *)
Lemma py_sorted_filter (k : version_tuple) (l : list A) (r : bool) :
  filter (λ a, key a = k) (py_sorted key l r) = filter (λ a, key a = k) l.
Proof.
  destruct r; simpl.
  - by rewrite filter_reverse, sort_asc_filter, filter_reverse, reverse_involutive.
  - apply sort_asc_filter.
Qed.

End PySortedFacts.

(** ** [int] and [version_to_tuple] on examples *)

Example int_plain : PyStr.int "10" = Some 10.
Proof. reflexivity. Qed.

Example int_sign_space_underscore : PyStr.int " -1_000 " = Some (-1000).
Proof. reflexivity. Qed.

Example int_rejects :
  PyStr.int "" = None ∧ PyStr.int "1a" = None ∧ PyStr.int "1__0" = None ∧
  PyStr.int "- 1" = None ∧ PyStr.int "0x10" = None.
Proof. by repeat split. Qed.

Example version_to_tuple_examples :
  version_to_tuple (Some "2.10") = [2; 10] ∧
  version_to_tuple (Some "1.0.1") = [1; 0; 1] ∧
  version_to_tuple (Some "1..2") = [0; 0] ∧
  version_to_tuple (Some "1.0-beta") = [0; 0] ∧
  version_to_tuple (Some "") = [0; 0] ∧
  version_to_tuple None = [0; 0].
Proof. by repeat split. Qed.

(** ** [version_to_tuple] *)

Lemma well_formed_is_Some (s : string) :
  well_formed s = true ↔ is_Some (mapM PyStr.int (PyStr.split "." s)).
Proof.
  unfold well_formed. rewrite mapM_is_Some, forallb_forall, Forall_forall.
  split; intros Hs c Hc.
  - apply list_elem_of_In, Hs in Hc. by apply bool_decide_eq_true in Hc.
  - apply bool_decide_eq_true. by apply Hs, list_elem_of_In.
Qed.

(** A string with a component that [int] rejects parses to [(0, 0)]. *)
Lemma version_to_tuple_malformed (s : string) :
  well_formed s = false → version_to_tuple (Some s) = [0; 0].
Proof.
  intros Hs. simpl. destruct (mapM _ _) as [t|] eqn:Ht; [|done].
  assert (well_formed s = true) by (apply well_formed_is_Some; eauto).
  congruence.
Qed.

(** A well-formed string parses to its integer components. *)
Lemma version_to_tuple_components (s : string) (cs : list Z) :
  components s cs → version_to_tuple (Some s) = cs.
Proof.
  intros Hs. simpl. by rewrite (mapM_Some_2 _ _ _ Hs).
Qed.

Lemma components_well_formed (s : string) (cs : list Z) :
  components s cs → well_formed s = true.
Proof.
  intros Hs. apply well_formed_is_Some. exists cs. by apply mapM_Some_2.
Qed.

(** ** [int] reads decimal notation *)

Lemma rev_is_reverse {A} (l : list A) : rev l = reverse l.
Proof. apply rev_alt. Qed.

Lemma digit_of_spec (c : ascii) (d : Z) :
  digit_of c = Some d ↔ PyStr.is_digit c = true ∧ PyStr.digit_value c = d.
Proof.
  destruct c as [[] [] [] [] [] [] [] []]; split; vm_compute;
    solve [ intros [= <-]; split; reflexivity
          | intros [_ <-]; reflexivity
          | intros [=]
          | intros [[=] _] ].
Qed.

Lemma digit_of_plain (c : ascii) (d : Z) :
  digit_of c = Some d →
  Ascii.eqb c "_" = false ∧ Ascii.eqb c "-" = false ∧ Ascii.eqb c "+" = false ∧
  PyStr.is_space c = false.
Proof.
  destruct c as [[] [] [] [] [] [] [] []]; vm_compute;
    solve [ intros [=] | intros _; repeat split ].
Qed.

Lemma blank_spec (c : ascii) : blank c ↔ PyStr.is_space c = true.
Proof.
  unfold blank. split.
  - intros Hc.
    repeat (apply elem_of_cons in Hc as [->|Hc]; [reflexivity|]).
    by apply elem_of_nil in Hc.
  - destruct c as [[] [] [] [] [] [] [] []]; vm_compute;
      solve [ intros [=] | intros _; repeat constructor ].
Qed.

(** What [lstrip_spaces] drops is a run of blanks, and what it keeps
    does not start with one. *)
Lemma lstrip_spaces_spec (l : list ascii) :
  ∃ before,
    l = before ++ PyStr.lstrip_spaces l ∧ Forall blank before ∧
    match PyStr.lstrip_spaces l with
    | c :: _ => PyStr.is_space c = false
    | [] => True
    end.
Proof.
  induction l as [|c l (before & Hl & Hbefore & Hhead)]; [by exists []|].
  simpl. destruct (PyStr.is_space c) eqn:Hc.
  - exists (c :: before). split; [by rewrite Hl at 1|].
    split; [|done]. constructor; [by apply blank_spec|done].
  - by exists [].
Qed.

Lemma lstrip_spaces_blanks (before l : list ascii) :
  Forall blank before →
  match l with c :: _ => PyStr.is_space c = false | [] => True end →
  PyStr.lstrip_spaces (before ++ l) = l.
Proof.
  intros Hbefore Hl. induction Hbefore as [|c before Hc%blank_spec _ IH]; simpl.
  - destruct l as [|c l]; [done|]. simpl. by rewrite Hl.
  - by rewrite Hc.
Qed.

(** A numeral starts and ends with a digit. *)
Lemma numeral_head (l : list ascii) (n : Z) :
  numeral l n → ∃ c d l', l = c :: l' ∧ digit_of c = Some d.
Proof.
  induction 1 as [c d Hc|l n c d _ (c0 & d0 & l' & -> & Hc0) _
                  |l n c d _ (c0 & d0 & l' & -> & Hc0) _]; by eauto.
Qed.

Lemma numeral_last (l : list ascii) (n : Z) :
  numeral l n → ∃ l' c d, l = l' ++ [c] ∧ digit_of c = Some d.
Proof.
  destruct 1 as [c d Hc|l n c d _ Hc|l n c d _ Hc].
  - by exists [], c, d.
  - by exists l, c, d.
  - exists (l ++ ["_"%char]), c, d. by rewrite <-app_assoc.
Qed.

(** [digits] on a numeral that grows by a digit. *)
Lemma digits_snoc (l : list ascii) (c : ascii) (d acc m : Z) (prev_digit : bool) :
  PyStr.digits acc prev_digit l = Some m →
  digit_of c = Some d →
  PyStr.digits acc prev_digit (l ++ [c]) = Some (10 * m + d) ∧
  PyStr.digits acc prev_digit (l ++ ["_"; c]%char) = Some (10 * m + d).
Proof.
  intros Hl Hc. pose proof (digit_of_plain c d Hc) as (Hu & _).
  apply digit_of_spec in Hc as [Hdigit <-].
  revert acc prev_digit Hl. induction l as [|x l IH]; intros acc prev_digit Hl.
  - simpl in Hl. destruct prev_digit; [|done]. injection Hl as <-.
    simpl. by rewrite Hdigit.
  - simpl in Hl |- *. destruct (PyStr.is_digit x); [by apply IH|].
    destruct (Ascii.eqb x "_"); [|done].
    destruct prev_digit; [by apply IH|done].
Qed.

Lemma numeral_digits (l : list ascii) (n : Z) :
  numeral l n → PyStr.digits 0 false l = Some n.
Proof.
  induction 1 as [c d Hc|l n c d _ IH Hc|l n c d _ IH Hc].
  - apply digit_of_spec in Hc as [Hdigit <-]. simpl. by rewrite Hdigit.
  - by apply digits_snoc.
  - by apply digits_snoc.
Qed.

(** Conversely, what [digits] accepts after a numeral extends it. *)
Lemma digits_numeral_from (l p : list ascii) (a n : Z) :
  numeral p a →
  (PyStr.digits a true l = Some n → numeral (p ++ l) n) ∧
  (PyStr.digits a false l = Some n → numeral (p ++ "_"%char :: l) n).
Proof.
  revert p a. induction l as [|x l IH]; intros p a Hp.
  { simpl. split; [|done]. intros [= <-]. by rewrite app_nil_r. }
  simpl. destruct (PyStr.is_digit x) eqn:Hx.
  - assert (digit_of x = Some (PyStr.digit_value x)) as Hd by by apply digit_of_spec.
    split; intros Hl.
    + rewrite (cons_middle x), app_assoc.
      by apply (IH (p ++ [x]) (10 * a + PyStr.digit_value x)); [constructor|].
    + change (p ++ "_"%char :: x :: l) with (p ++ ["_"; x]%char ++ l).
      rewrite app_assoc.
      by apply (IH (p ++ ["_"; x]%char) (10 * a + PyStr.digit_value x)); [constructor|].
  - destruct (Ascii.eqb x "_") eqn:Hu; [|done].
    apply Ascii.eqb_eq in Hu as ->. split; [|done].
    intros Hl. by apply (IH p a).
Qed.

Lemma digits_numeral (l : list ascii) (n : Z) :
  PyStr.digits 0 false l = Some n → numeral l n.
Proof.
  destruct l as [|c l]; [done|]. simpl.
  destruct (PyStr.is_digit c) eqn:Hc; [|by destruct (Ascii.eqb c "_")].
  assert (digit_of c = Some (PyStr.digit_value c)) as Hd by by apply digit_of_spec.
  intros Hl. change (c :: l) with ([c] ++ l).
  apply (digits_numeral_from l [c] (10 * 0 + PyStr.digit_value c) n); [|done].
  replace (10 * 0 + PyStr.digit_value c) with (PyStr.digit_value c) by lia.
  by constructor.
Qed.

Lemma signed_numeral_ends (l : list ascii) (z : Z) :
  signed_numeral l z →
  (∃ c l', l = c :: l' ∧ PyStr.is_space c = false) ∧
  (∃ l' c, l = l' ++ [c] ∧ PyStr.is_space c = false).
Proof.
  intros Hl.
  assert (∃ m n, numeral m n ∧ (l = m ∨ ∃ s, l = s :: m ∧ PyStr.is_space s = false))
    as (m & n & Hm & Hlm).
  { destruct Hl as [l n Hn|l n Hn|l n Hn]; exists l, n; (split; [done|]); eauto. }
  destruct (numeral_head m n Hm) as (c & d & m' & -> & Hc%digit_of_plain).
  destruct (numeral_last _ n Hm) as (m'' & c' & d' & Hlast & Hc'%digit_of_plain).
  destruct Hlm as [->|(s & -> & Hs)].
  - split; [exists c, m'; tauto|]. exists m'', c'. tauto.
  - split; [by exists s, (c :: m')|]. exists (s :: m''), c'.
    rewrite Hlast. tauto.
Qed.

(** [int] accepts exactly the strings that denote an integer, and
    returns the integer denoted. *)
Lemma int_denotes (s : string) (z : Z) : PyStr.int s = Some z ↔ denotes s z.
Proof.
  unfold PyStr.int, PyStr.strip_spaces. split.
  - destruct (lstrip_spaces_spec (list_ascii_of_string s)) as (before & Hs & Hbefore & _).
    destruct (lstrip_spaces_spec (rev (PyStr.lstrip_spaces (list_ascii_of_string s))))
      as (behind & Hrev & Hbehind & _).
    set (l := rev (PyStr.lstrip_spaces (rev (PyStr.lstrip_spaces (list_ascii_of_string s))))).
    intros Hint.
    apply (denotes_intro s z before l (rev behind)).
    + rewrite Hs at 1. f_equal. unfold l. rewrite <-rev_app_distr, <-Hrev.
      by rewrite rev_involutive.
    + done.
    + rewrite rev_is_reverse. by apply Forall_reverse.
    + destruct l as [|c l']; [done|].
      destruct (Ascii.eqb c "-") eqn:Hminus.
      { apply Ascii.eqb_eq in Hminus as ->.
        destruct (PyStr.digits 0 false l') as [n|] eqn:Hn; [|done].
        injection Hint as <-. by apply signed_minus, digits_numeral. }
      destruct (Ascii.eqb c "+") eqn:Hplus.
      { apply Ascii.eqb_eq in Hplus as ->. by apply signed_plus, digits_numeral. }
      by apply signed_plain, digits_numeral.
  - intros [before l behind -> Hbefore Hbehind Hl].
    destruct (signed_numeral_ends l z Hl) as [(c & l' & Hhead & Hc) (l'' & c' & Hlast & Hc')].
    rewrite lstrip_spaces_blanks; [|done|by rewrite Hhead].
    rewrite rev_app_distr, lstrip_spaces_blanks;
      [|rewrite rev_is_reverse; by apply Forall_reverse
       |by rewrite Hlast, rev_app_distr].
    rewrite rev_involutive.
    destruct Hl as [l n Hn|l n Hn|l n Hn].
    + destruct (numeral_head l n Hn) as (c0 & d0 & l0 & -> & (_ & -> & -> & _)%digit_of_plain).
      by apply numeral_digits.
    + simpl. by apply numeral_digits.
    + simpl. by rewrite (numeral_digits l n Hn).
Qed.

(** A version string is well-formed exactly when each of its
    components denotes an integer, and [version_to_tuple] returns the
    integers denoted. *)
Lemma version_to_tuple_denotes (s : string) (zs : list Z) :
  Forall2 denotes (PyStr.split "." s) zs → version_to_tuple (Some s) = zs.
Proof.
  intros Hs. apply version_to_tuple_components. unfold components.
  eapply Forall2_impl; [exact Hs|]. intros c z. apply int_denotes.
Qed.

Lemma well_formed_denotes (s : string) :
  well_formed s = true ↔ ∃ zs, Forall2 denotes (PyStr.split "." s) zs.
Proof.
  rewrite well_formed_is_Some. split.
  - intros [zs Hzs]. exists zs. apply mapM_Some_1 in Hzs.
    eapply Forall2_impl; [exact Hzs|]. intros c z. apply int_denotes.
  - intros [zs Hzs]. exists zs. apply mapM_Some_2.
    eapply Forall2_impl; [exact Hzs|]. intros c z. apply int_denotes.
Qed.

(** ** [sort_items] *)

Lemma sort_items_py_sorted (channel : Etree.element) :
  sort_items channel = py_sorted get_version (Etree.findall "item" channel) true.
Proof.
  unfold sort_items. by destruct (Etree.findall "item" channel).
Qed.

Lemma sort_items_Permutation (channel : Etree.element) :
  sort_items channel ≡ₚ Etree.findall "item" channel.
Proof. rewrite sort_items_py_sorted. apply py_sorted_Permutation. Qed.

Lemma sort_items_descending (channel : Etree.element) :
  descending (sort_items channel).
Proof. rewrite sort_items_py_sorted. apply py_sorted_reverse_sorted. Qed.

(** The key of an entry in terms of its version string. *)
Lemma get_version_entry_version (item : Etree.element) :
  get_version item =
    match entry_version item with
    | Some s => version_to_tuple (Some s)
    | None => [0; 0]
    end.
Proof.
  unfold get_version, entry_version, Etree.get.
  destruct (Etree.find "enclosure" item) as [enclosure|]; [|done].
  by destruct (assoc_get _ _).
Qed.

Lemma get_version_malformed (item : Etree.element) :
  malformed (entry_version item) → get_version item = [0; 0].
Proof.
  rewrite get_version_entry_version.
  destruct (entry_version item) as [s|]; [|done].
  apply version_to_tuple_malformed.
Qed.

(** In the sorted sequence an entry with a greater key stands before
    every entry with a smaller key. *)
Lemma sort_items_greater_first (channel x y : Etree.element) :
  x ∈ Etree.findall "item" channel →
  y ∈ Etree.findall "item" channel →
  tuple_ltb (get_version x) (get_version y) = true →
  ∃ l1 l2 l3, sort_items channel = l1 ++ y :: l2 ++ x :: l3.
Proof.
  intros Hx Hy Hlt.
  rewrite <-sort_items_Permutation in Hx, Hy.
  pose proof (sort_items_descending channel) as Hsorted.
  destruct (list_elem_of_split _ _ Hx) as (l1 & l3 & Heq).
  rewrite Heq in Hy, Hsorted. rewrite Heq.
  apply elem_of_app in Hy as [Hy|Hy].
  - destruct (list_elem_of_split _ _ Hy) as (m1 & m2 & ->).
    exists m1, m2, l3. by rewrite <-app_assoc.
  - apply elem_of_cons in Hy as [->|Hy].
    + by rewrite tuple_ltb_irrefl in Hlt.
    + apply StronglySorted_app_1_r, StronglySorted_cons in Hsorted as [Hall _].
      rewrite Forall_forall in Hall. rewrite (Hall _ Hy) in Hlt. done.
Qed.

(** A sublist selected by [filter] splits the list it was taken from. *)
Lemma filter_eq_app_cons {A} (P : A → Prop) `{∀ a, Decision (P a)}
    (l u v : list A) (x : A) :
  filter P l = u ++ x :: v →
  ∃ l1 l2, l = l1 ++ x :: l2 ∧ filter P l1 = u ∧ filter P l2 = v.
Proof.
  revert u. induction l as [|a l IH]; intros u Hl.
  { by destruct u. }
  rewrite filter_cons in Hl. destruct (decide (P a)) as [Ha|Ha].
  - destruct u as [|b u]; simpl in Hl; injection Hl as -> Hl.
    + exists [], l. by rewrite filter_nil.
    + destruct (IH _ Hl) as (l1 & l2 & -> & <- & <-).
      exists (b :: l1), l2. by rewrite filter_cons_True.
  - destruct (IH _ Hl) as (l1 & l2 & -> & <- & <-).
    exists (a :: l1), l2. by rewrite filter_cons_False.
Qed.

Lemma sort_items_filter (channel : Etree.element) (k : version_tuple) :
  filter (λ item, get_version item = k) (sort_items channel) =
  filter (λ item, get_version item = k) (Etree.findall "item" channel).
Proof. rewrite sort_items_py_sorted. apply py_sorted_filter. Qed.

(** Two entries with equal keys come out in the order they went in. *)
Lemma sort_items_keeps_relative_order (channel a b : Etree.element)
    (l1 l2 l3 : list Etree.element) :
  Etree.findall "item" channel = l1 ++ a :: l2 ++ b :: l3 →
  get_version a = get_version b →
  ∃ m1 m2 m3, sort_items channel = m1 ++ a :: m2 ++ b :: m3.
Proof.
  intros Hitems Hab.
  pose proof (sort_items_filter channel (get_version a)) as Hf.
  rewrite Hitems, filter_app, filter_cons_True, filter_app in Hf by done.
  rewrite (filter_cons_True _ b) in Hf by done.
  apply filter_eq_app_cons in Hf as (m1 & m & -> & _ & Hm).
  apply filter_eq_app_cons in Hm as (m2 & m3 & -> & _ & _).
  by exists m1, m2, m3.
Qed.

(** ** The methods as functions of the world *)

Section UpdaterFacts.

Context `{Platform}.

(** Document resolution, case by case: a missing file ends in the
    [AttributeError] of [update_info.name], which the handler of
    [create_or_load_xml] does not catch; an existing file is parsed. *)
Lemma create_or_load_xml_eq (self : AppcastUpdater) (update_info : UpdateInfo) (w : world) :
  create_or_load_xml self update_info w =
    match files w !! appcast_path self with
    | None => (inl AttributeError, after [EvExists (appcast_path self)] w)
    | Some Inaccessible =>
        (inl (AppcastError "Failed to create/load XML" OSError),
         after [EvExists (appcast_path self)] w)
    | Some (File data) =>
        (match etree_parse data with
         | Some root => inr root
         | None => inl (AppcastError "Failed to create/load XML" ParseError)
         end,
         after [EvParse (appcast_path self); EvExists (appcast_path self)] w)
    | Some Unreadable =>
        (inl (AppcastError "Failed to create/load XML" OSError),
         after [EvParse (appcast_path self); EvExists (appcast_path self)] w)
    end.
Proof.
  unfold create_or_load_xml, wrap_errors, path_exists, parse_file, bind, M_bind,
    log, get_world, ret, raise, lift, after. simpl.
  destruct (files w !! appcast_path self) as [[data| |]|] eqn:Hfile; simpl;
    rewrite ?Hfile; simpl; [|done..].
  by destruct (etree_parse data).
Qed.

(** The integrity step, case by case. *)
Lemma calculate_file_hash_eq (self : AppcastUpdater) (file_path : string) (w : world) :
  calculate_file_hash self file_path w =
    (match files w !! file_path with
     | Some (File data) =>
         inr (sha256_hexdigest
                (foldl sha256_update sha256_new (read_blocks (length data) 4096 data)))
     | Some Unreadable | Some Inaccessible =>
         inl (AppcastError "Failed to calculate file hash" OSError)
     | None =>
         if PyStr.has_nul file_path then inl ValueError
         else inl (AppcastError "Failed to calculate file hash" OSError)
     end,
     after [EvOpenRead file_path] w).
Proof.
  unfold calculate_file_hash, wrap_errors, open_rb, bind, M_bind, log, get_world,
    ret, raise, after. simpl.
  destruct (files w !! file_path) as [[data| |]|]; [done..|].
  by destruct (PyStr.has_nul file_path).
Qed.

(** The blocks read from a file make up the file: the fuel given to
    [read_blocks] is enough. *)
Lemma read_blocks_concat (n : nat) (data : list byte) (fuel : nat) :
  (0 < n)%nat → (length data ≤ fuel)%nat →
  concat (read_blocks fuel n data) = data.
Proof.
  intros Hn. revert data. induction fuel as [|fuel IH]; intros data Hlen.
  { destruct data; [done|simpl in Hlen; lia]. }
  destruct data as [|b data]; [done|].
  change (read_blocks (S fuel) n (b :: data))
    with (take n (b :: data) :: read_blocks fuel n (drop n (b :: data))).
  rewrite concat_cons, IH, take_drop; [done|].
  rewrite length_drop. simpl in *. lia.
Qed.

End UpdaterFacts.

(** ** The reordering step *)

(** A round of the put-back loop always raises: without a
    [description] child on [None.text], otherwise in [CDATA] or, at the
    latest, in [set], which rejects the [CDATA] object. *)
Lemma readd_item_raises (sorted_item channel : Etree.element) :
  ∃ e, readd_item sorted_item channel = inl e ∧
       (e = AttributeError ∨ e = TypeError ∨ e = ValueError).
Proof.
  unfold readd_item.
  destruct (Etree.find "description" sorted_item) as [description|]; [|eauto].
  unfold Etree.CDATA.
  destruct (Etree.get_text description) as [s|]; [|simpl; eauto].
  destruct (negb (Etree.xml_compatible s)); [simpl; eauto 6|].
  destruct (PyStr.contains "]]>" s); simpl; eauto 6.
Qed.

(** With at least one item in the channel the reordering step raises,
    and the channel is left without any item. *)
Lemma reorder_items_raises (channel : Etree.element) :
  Etree.findall "item" channel ≠ [] →
  ∃ e, reorder_items channel = (inl e, Etree.remove_all "item" channel) ∧
       (e = AttributeError ∨ e = TypeError ∨ e = ValueError).
Proof.
  intros Hitems. unfold reorder_items.
  destruct (sort_items channel) as [|first rest] eqn:Hsorted.
  { pose proof (sort_items_Permutation channel) as Hperm.
    rewrite Hsorted in Hperm. by apply Permutation_nil_l in Hperm. }
  simpl.
  destruct (readd_item_raises first (Etree.remove_all "item" channel)) as (e & -> & He).
  eauto.
Qed.

Lemma findall_remove_all (t : string) (elem : Etree.element) :
  Etree.findall t (Etree.remove_all t elem) = [].
Proof.
  unfold Etree.findall, Etree.remove_all. simpl.
  induction (Etree.children elem) as [|c l IH]; simpl; [done|].
  destruct (Etree.has_tag t c) eqn:Hc; simpl; [done|]. by rewrite Hc.
Qed.

Lemma findall_append (t : string) (parent child : Etree.element) :
  Etree.tag child = t →
  Etree.findall t (Etree.append parent child) = Etree.findall t parent ++ [child].
Proof.
  intros Ht. unfold Etree.findall, Etree.append. simpl.
  rewrite List.filter_app. simpl. unfold Etree.has_tag at 2.
  by rewrite Ht, String.eqb_refl.
Qed.

(** ** Building the new entry keeps its tag *)

Lemma set_text_tag (elem elem' : Etree.element) (v : Etree.pyvalue) :
  Etree.set_text elem v = inr elem' → Etree.tag elem' = Etree.tag elem.
Proof.
  unfold Etree.set_text, bind, result_bind.
  destruct v as [|s|s]; simpl; try destruct (Etree.xml_compatible s); simpl;
    intros Hrun; try done; by injection Hrun as <-.
Qed.

Lemma sub_element_text_tag (parent parent' : Etree.element) (t : string)
    (v : Etree.pyvalue) :
  Etree.sub_element_text parent t v = inr parent' →
  Etree.tag parent' = Etree.tag parent.
Proof.
  unfold Etree.sub_element_text, bind, result_bind.
  destruct (Etree.set_text _ _); intros Hrun; [done|]. by injection Hrun as <-.
Qed.

Lemma for_each_invariant {A S} (P : S → Prop) (body : A → S → result S)
    (l : list A) (s s' : S) :
  (∀ a s s', body a s = inr s' → P s → P s') →
  P s → for_each body l s = inr s' → P s'.
Proof.
  intros Hbody. revert s. induction l as [|a l IH]; simpl; intros s Hs Hrun.
  { by injection Hrun as <-. }
  unfold bind, result_bind in Hrun.
  destruct (body a s) as [e|s1] eqn:Hstep; [done|]. eauto.
Qed.

Lemma create_enclosure_tag (self : AppcastUpdater) (item item' : Etree.element)
    (update_info : UpdateInfo) (file_hash : string) :
  create_enclosure self item update_info file_hash = inr item' →
  Etree.tag item' = Etree.tag item.
Proof.
  unfold create_enclosure, bind, result_bind. intros Hrun.
  repeat match type of Hrun with
         | match ?c with _ => _ end = _ => destruct c; [done|]
         end.
  by injection Hrun as <-.
Qed.

(** ** Computations that do not write *)

Lemma after_after (evs1 evs2 : list event) (w : world) :
  after evs2 (after evs1 w) = after (evs2 ++ evs1) w.
Proof. unfold after. simpl. by rewrite app_assoc. Qed.

Lemma events_since_after (evs : list event) (w : world) :
  events_since w (after evs w) = evs.
Proof.
  unfold events_since, after. simpl.
  by rewrite length_app, Nat.add_sub, take_app_length.
Qed.

Lemma no_write_app (evs1 evs2 : list event) :
  no_write evs1 → no_write evs2 → no_write (evs1 ++ evs2).
Proof. apply Forall_app_2. Qed.

Lemma quiet_lift {A} (r : result A) : quiet (lift r).
Proof. intros w. exists r, []. split; [by destruct w|constructor]. Qed.

Lemma quiet_strftime_now : quiet strftime_now.
Proof. intros w. exists (inr (now w)), []. split; [by destruct w|constructor]. Qed.

Lemma aborts_raise {A} (e : exn) : aborts (raise (A:=A) e).
Proof. intros w. exists e, []. split; [by destruct w|constructor]. Qed.

(** A quiet computation followed by one that aborts, aborts. *)
Lemma aborts_bind {A B} (c : M A) (k : A → M B) :
  quiet c →
  (∀ a, (∃ w, (c w).1 = inr a) → aborts (k a)) →
  aborts (let* a := c in k a).
Proof.
  intros Hc Hk w. unfold bind, M_bind.
  destruct (Hc w) as (r & evs1 & Hrun & Hevs1).
  destruct r as [e|a].
  { exists e, evs1. by rewrite Hrun. }
  destruct (Hk a) with (after evs1 w) as (e & evs2 & Hk' & Hevs2).
  { exists w. by rewrite Hrun. }
  exists e, (evs2 ++ evs1). rewrite Hrun, Hk', after_after.
  split; [done|]. by apply no_write_app.
Qed.

Lemma aborts_wrap_errors {A} (msg : string) (c : M A) :
  aborts c →
  ∀ w, ∃ cause evs,
    wrap_errors is_Exception msg c w = (inl (AppcastError msg cause), after evs w) ∧
    no_write evs.
Proof.
  intros Hc w. destruct (Hc w) as (e & evs & Hrun & Hevs).
  exists e, evs. unfold wrap_errors. by rewrite Hrun.
Qed.

Section PipelineFacts.

Context `{Platform}.

Lemma quiet_create_or_load_xml (self : AppcastUpdater) (update_info : UpdateInfo) :
  quiet (create_or_load_xml self update_info).
Proof.
  intros w. rewrite create_or_load_xml_eq.
  destruct (files w !! appcast_path self) as [[data| |]|];
    eexists _, _; (split; [reflexivity|]); by repeat constructor.
Qed.

Lemma quiet_calculate_file_hash (self : AppcastUpdater) (file_path : string) :
  quiet (calculate_file_hash self file_path).
Proof.
  intros w. rewrite calculate_file_hash_eq.
  eexists _, _. split; [reflexivity|]. by repeat constructor.
Qed.

(** The body of [add_update] never reaches [write_xml]: the new item is
    in the channel when the reordering step starts, and that step
    raises. *)
Lemma add_update_body_aborts (self : AppcastUpdater) (update_info : UpdateInfo) :
  aborts (add_update_body self update_info).
Proof.
  unfold add_update_body.
  apply aborts_bind; [apply quiet_create_or_load_xml|]. intros root _.
  destruct (Etree.find "channel" root) as [channel|]; [|apply aborts_raise].
  apply aborts_bind; [apply quiet_lift|]. intros item1 [? Htitle].
  apply sub_element_text_tag in Htitle. simpl in Htitle.
  apply aborts_bind; [apply quiet_strftime_now|]. intros pub_date _.
  apply aborts_bind; [apply quiet_lift|]. intros item2 [? HpubDate].
  apply sub_element_text_tag in HpubDate.
  apply aborts_bind; [apply quiet_calculate_file_hash|]. intros file_hash _.
  apply aborts_bind; [apply quiet_lift|]. intros item3 [? Henclosure].
  apply create_enclosure_tag in Henclosure.
  apply aborts_bind; [apply quiet_lift|]. intros item4 [? Hversions].
  apply (for_each_invariant (λ item, Etree.tag item = "item")) in Hversions;
    [|intros ???; by intros ->%sub_element_text_tag|congruence].
  apply aborts_bind; [apply quiet_lift|]. intros notes _.
  apply aborts_bind; [apply quiet_lift|]. intros item5 [? Hdescription].
  apply sub_element_text_tag in Hdescription.
  destruct (reorder_items_raises (Etree.append channel item5)) as (e & -> & _).
  { rewrite findall_append by congruence. by destruct (Etree.findall _ _). }
  apply aborts_raise.
Qed.

(** Every call of [add_update] ends in the umbrella error and has
    written nothing. *)
Lemma add_update_fails (self : AppcastUpdater) (update_info : UpdateInfo) (w : world) :
  ∃ cause evs,
    add_update self update_info w =
      (inl (AppcastError "Failed to add update" cause), after evs w) ∧
    no_write evs.
Proof. apply aborts_wrap_errors, add_update_body_aborts. Qed.

End PipelineFacts.

(** * The claims *)

(** ** Ordering of the entries *)

(** The order in which [add_update] sets out to put the entries back
    into the channel is the list returned by [sort_items]: it is a
    rearrangement of all the items of the channel and it is descending
    by parsed version tuple, that is, no entry is followed by one with a
    greater tuple.  Entries with equal tuples may follow one another.
    No run gets as far as writing this order to the feed file
    ([add_update_fails]). *)
Lemma sort_items_descending_rearrangement (channel : Etree.element) :
  descending (sort_items channel) ∧
  sort_items channel ≡ₚ Etree.findall "item" channel.
Proof.
  split; [apply sort_items_descending|apply sort_items_Permutation].
Qed.

(** A channel that holds version 1.0 and receives version 1.0 again
    is sorted to two entries of equal version tuple: the order that
    [sort_items] returns is not strictly descending. *)
Lemma sort_items_not_strictly_descending :
  ¬ strictly_descending
      (sort_items (Etree.append (Sample.channel [Sample.entry "1.0" "first"])
                                (Sample.entry "1.0" "second"))).
Proof.
  assert (sort_items (Etree.append (Sample.channel [Sample.entry "1.0" "first"])
                                   (Sample.entry "1.0" "second"))
          = [Sample.entry "1.0" "first"; Sample.entry "1.0" "second"]) as ->
    by (vm_compute; reflexivity).
  intros [Hfirst _]%StronglySorted_cons.
  apply Forall_cons in Hfirst as [Hlt _]. vm_compute in Hlt. discriminate.
Qed.

(** C3, as amended.  An entry whose version is missing or ill-formed
    has the key [(0, 0)], and in the sorted order it stands after every
    entry whose well-formed version parses to a tuple greater than
    [(0, 0)]. *)
Theorem malformed_version_after_greater (channel x y : Etree.element) (s : string) :
  x ∈ Etree.findall "item" channel →
  y ∈ Etree.findall "item" channel →
  malformed (entry_version x) →
  entry_version y = Some s →
  well_formed s = true →
  tuple_ltb [0; 0] (version_to_tuple (Some s)) = true →
  version_to_tuple (entry_version x) = [0; 0] ∧
  get_version x = [0; 0] ∧
  ∃ l1 l2 l3, sort_items channel = l1 ++ y :: l2 ++ x :: l3.
Proof.
  intros Hx Hy Hbad Hs _ Hpos.
  pose proof (get_version_malformed x Hbad) as Hkey.
  split; [|split; [done|]].
  - destruct (entry_version x) as [v|]; [|done]. by apply version_to_tuple_malformed.
  - apply sort_items_greater_first; [done..|].
    by rewrite Hkey, (get_version_entry_version y), Hs.
Qed.

Lemma malformed_version_after_greater_witness :
  version_to_tuple (entry_version (Sample.entry "1.x" "bad")) = [0; 0] ∧
  get_version (Sample.entry "1.x" "bad") = [0; 0] ∧
  ∃ l1 l2 l3,
    sort_items (Sample.channel [Sample.entry "1.x" "bad"; Sample.entry "0.1" "good"])
    = l1 ++ Sample.entry "0.1" "good" :: l2 ++ Sample.entry "1.x" "bad" :: l3.
Proof.
  apply (malformed_version_after_greater
           (Sample.channel [Sample.entry "1.x" "bad"; Sample.entry "0.1" "good"])
           (Sample.entry "1.x" "bad") (Sample.entry "0.1" "good") "0.1").
  - vm_compute. left.
  - vm_compute. right. left.
  - reflexivity.
  - reflexivity.
  - reflexivity.
  - reflexivity.
Defined.

(** C3, counterexample.  The version ["0"] is well-formed and parses to
    [(0,)], which Python orders below [(0, 0)]: the entry with the
    ill-formed version ["abc"] is sorted in front of it. *)
Lemma malformed_version_before_well_formed :
  well_formed "abc" = false ∧
  well_formed "0" = true ∧
  version_to_tuple (Some "abc") = [0; 0] ∧
  sort_items (Sample.channel [Sample.entry "0" "good"; Sample.entry "abc" "bad"])
  = [Sample.entry "abc" "bad"; Sample.entry "0" "good"].
Proof. repeat split; vm_compute; reflexivity. Qed.

(** C8.  For two well-formed version strings, that is strings each of
    whose dot-separated components is a decimal numeral of an integer,
    the tuples that [version_to_tuple] returns compare under Python's
    [<] as the integers denoted compare numerically, position by
    position, a proper prefix being the smaller: ["2.9"] is below
    ["2.10"], and ["1.0"] is below ["1.0.1"]. *)
Theorem version_order_is_numeric (a b : string) (xs ys : list Z) :
  Forall2 denotes (PyStr.split "." a) xs →
  Forall2 denotes (PyStr.split "." b) ys →
  tuple_ltb (version_to_tuple (Some a)) (version_to_tuple (Some b)) = true ↔
  numeric_lt xs ys.
Proof.
  intros Ha Hb.
  rewrite (version_to_tuple_denotes a xs Ha), (version_to_tuple_denotes b ys Hb).
  apply tuple_ltb_numeric_lt.
Qed.

Lemma version_order_is_numeric_witness :
  tuple_ltb (version_to_tuple (Some "2.9")) (version_to_tuple (Some "2.10")) = true ∧
  tuple_ltb (version_to_tuple (Some "1.0")) (version_to_tuple (Some "1.0.1")) = true.
Proof.
  assert (∀ c d, digit_of c = Some d → denotes (String c EmptyString) d) as Hdigit.
  { intros c d Hc. apply (denotes_intro _ d [] [c] []); [done|constructor..|].
    by apply signed_plain, numeral_digit. }
  assert (denotes "10" 10) as Hten.
  { apply (denotes_intro "10" 10 [] ["1"; "0"]%char []); [done|constructor..|].
    apply signed_plain, (numeral_next ["1"%char] 1 "0" 0); [|done].
    by apply numeral_digit. }
  split.
  - apply (version_order_is_numeric "2.9" "2.10" [2; 9] [2; 10]).
    + repeat constructor; by apply Hdigit.
    + repeat constructor; [by apply Hdigit|exact Hten].
    + apply (numeric_lt_component [2] 9 10 [] []). lia.
  - apply (version_order_is_numeric "1.0" "1.0.1" [1; 0] [1; 0; 1]).
    + repeat constructor; by apply Hdigit.
    + repeat constructor; by apply Hdigit.
    + apply (numeric_lt_shorter [1; 0] 1 []).
Defined.

(** C9.  When two items of a channel have equal parsed version tuples,
    the one that stood first before [sort_items] stands first in its
    result.  (By [sort_items_filter] the whole run of items with a given
    tuple comes out as it went in.) *)
Theorem sort_items_stable (channel a b : Etree.element)
    (l1 l2 l3 : list Etree.element) :
  Etree.findall "item" channel = l1 ++ a :: l2 ++ b :: l3 →
  get_version a = get_version b →
  ∃ m1 m2 m3, sort_items channel = m1 ++ a :: m2 ++ b :: m3.
Proof. apply sort_items_keeps_relative_order. Qed.

Lemma sort_items_stable_witness :
  ∃ m1 m2 m3,
    sort_items (Sample.channel [Sample.entry "1.0" "first"; Sample.entry "2.0" "newer";
                                Sample.entry "1.0" "second"])
    = m1 ++ Sample.entry "1.0" "first" :: m2 ++ Sample.entry "1.0" "second" :: m3.
Proof.
  apply (sort_items_stable _ _ _ [] [Sample.entry "2.0" "newer"] []).
  - reflexivity.
  - reflexivity.
Defined.

(** ** Document resolution *)

(** Whatever the release, a missing feed file makes document resolution
    raise [AttributeError]: [UpdateInfo] has no field [name]. *)
Lemma create_or_load_xml_missing_file `{Platform} (self : AppcastUpdater)
    (update_info : UpdateInfo) (w : world) :
  files w !! appcast_path self = None →
  create_or_load_xml self update_info w =
    (inl AttributeError, after [EvExists (appcast_path self)] w).
Proof. intros Hfile. by rewrite create_or_load_xml_eq, Hfile. Qed.


(** C2, the code at a failing input.  For the release 1.0 of the sample
    and no file at [appcast.xml], document resolution does not return a
    fresh document: it raises [AttributeError] after the existence test;
    and [main], called with the application name [App], exits with
    status 1 without touching the world. *)
Theorem fresh_document_is_not_built :
  let w := Sample.world_with None (Some (File [])) in
  @create_or_load_xml Sample.platform Sample.updater Sample.release w =
    (inl AttributeError, after [EvExists "appcast.xml"] w) ∧
  @main Sample.platform Sample.args w = (1, w).
Proof.
  split; [|reflexivity].
  by apply (@create_or_load_xml_missing_file Sample.platform).
Qed.

(** ** The reordering step *)

(** C4, the code at a failing input.  On a channel with the entries 1.0
    and 2.0 the reordering step raises [TypeError] in its first round,
    when [set] is handed the [CDATA] object, and leaves the channel
    with its title and no entry at all.  In a whole run, on a feed that
    holds the entry 1.0 and with every input valid, [add_update] reads
    the artifact, then fails with that [TypeError] and writes nothing. *)
Theorem reorder_items_drops_entries :
  reorder_items (Sample.channel [Sample.entry "1.0" "first"; Sample.entry "2.0" "second"])
  = (inl TypeError, Sample.channel []) ∧
  let w := Sample.world_with (Some (File [x01]%byte)) (Some (File [])) in
  @add_update Sample.platform Sample.updater Sample.release w =
    (inl (AppcastError "Failed to add update" TypeError),
     after [EvOpenRead "build/App.dmg"; EvParse "appcast.xml"; EvExists "appcast.xml"] w).
Proof. split; vm_compute; reflexivity. Qed.

(** ** Failures of the pipeline *)

Lemma bind_M_eq {A B} (c : M A) (k : A → M B) (w : world) :
  (let* a := c in k a) w =
    match c w with
    | (inl e, w') => (inl e, w')
    | (inr a, w') => k a w'
    end.
Proof. reflexivity. Qed.

Lemma sub_element_text_str (parent : Etree.element) (t s : string) :
  Etree.xml_compatible s = true →
  Etree.sub_element_text parent t (Etree.PyStr s) =
    inr (Etree.append parent
           {| Etree.tag := t; Etree.nsmap := []; Etree.attrib := [];
              Etree.text := Etree.Text s; Etree.children := [] |}).
Proof.
  intros Hs. unfold Etree.sub_element_text, Etree.set_text. by rewrite Hs.
Qed.

Section PipelineClaims.

Context `{Platform}.



(** C7.  When the feed file exists and its content does not parse,
    [add_update] fails with the error of document resolution, the
    [AppcastError] "Failed to create/load XML", after exactly two I/O
    operations, the existence test and the parse: the artifact is never
    opened for hashing, and nothing is written. *)
Theorem malformed_document_fails_before_hashing (self : AppcastUpdater)
    (update_info : UpdateInfo) (w : world) (data : list byte) :
  files w !! appcast_path self = Some (File data) →
  etree_parse data = None →
  add_update self update_info w =
    (inl (AppcastError "Failed to add update"
            (AppcastError "Failed to create/load XML" ParseError)),
     after [EvParse (appcast_path self); EvExists (appcast_path self)] w) ∧
  Forall (λ ev, is_open_read ev = false)
         [EvParse (appcast_path self); EvExists (appcast_path self)].
Proof.
  intros Hfile Hparse. split; [|by repeat constructor].
  unfold add_update, wrap_errors, add_update_body.
  by rewrite bind_M_eq, create_or_load_xml_eq, Hfile, Hparse.
Qed.

(** C10.  When the feed file parses to a document whose channel holds
    an item without a [description] child, [add_update] raises the
    umbrella [AppcastError] and the file system is what it was before
    the run, for every release. *)
Theorem missing_description_fails (self : AppcastUpdater) (update_info : UpdateInfo)
    (w : world) (data : list byte) (root channel item : Etree.element) :
  files w !! appcast_path self = Some (File data) →
  etree_parse data = Some root →
  Etree.find "channel" root = Some channel →
  item ∈ Etree.findall "item" channel →
  Etree.find "description" item = None →
  (∃ cause, (add_update self update_info w).1 =
              inl (AppcastError "Failed to add update" cause)) ∧
  files (add_update self update_info w).2 = files w ∧
  no_write (events_since w (add_update self update_info w).2).
Proof.
  intros _ _ _ _ _.
  destruct (add_update_fails self update_info w) as (cause & evs & -> & Hevs).
  simpl. split; [by exists cause|]. split; [done|].
  by rewrite events_since_after.
Qed.

End PipelineClaims.

(** The run behind C10 on the sample: the only item of the feed has no
    [description]; with a readable artifact and valid inputs the run
    gets past the integrity step and ends in the [AttributeError] of
    [None.text]. *)
Example missing_description_sample_run :
  let w := Sample.world_with (Some (File [x02]%byte)) (Some (File [])) in
  @add_update Sample.platform Sample.updater Sample.release w =
    (inl (AppcastError "Failed to add update" AttributeError),
     after [EvOpenRead "build/App.dmg"; EvParse "appcast.xml"; EvExists "appcast.xml"] w).
Proof. vm_compute. reflexivity. Qed.



Lemma malformed_document_fails_before_hashing_witness :
  let w := Sample.world_with (Some (File [x00]%byte)) (Some (File [])) in
  @add_update Sample.platform Sample.updater Sample.release w =
    (inl (AppcastError "Failed to add update"
            (AppcastError "Failed to create/load XML" ParseError)),
     after [EvParse "appcast.xml"; EvExists "appcast.xml"] w) ∧
  Forall (λ ev, is_open_read ev = false)
         [EvParse "appcast.xml"; EvExists "appcast.xml"].
Proof.
  apply (@malformed_document_fails_before_hashing Sample.platform Sample.updater
           Sample.release _ [x00]%byte).
  - reflexivity.
  - reflexivity.
Defined.

Lemma missing_description_fails_witness :
  let w := Sample.world_with (Some (File [x02]%byte)) (Some (File [])) in
  (∃ cause, (@add_update Sample.platform Sample.updater Sample.release w).1 =
              inl (AppcastError "Failed to add update" cause)) ∧
  files (@add_update Sample.platform Sample.updater Sample.release w).2 = files w ∧
  no_write (events_since w (@add_update Sample.platform Sample.updater Sample.release w).2).
Proof.
  apply (@missing_description_fails Sample.platform Sample.updater Sample.release _
           [x02]%byte (Sample.rss [Sample.bare_entry "1.0"])
           (Sample.channel [Sample.bare_entry "1.0"]) (Sample.bare_entry "1.0")).
  - reflexivity.
  - reflexivity.
  - reflexivity.
  - vm_compute. left.
  - reflexivity.
Defined.

(** * Further properties *)

(** ** Strings: [rstrip], [basename], [split] *)

Lemma lstrip_char_replicate (c : ascii) (l : list ascii) :
  ∃ n, l = replicate n c ++ PyStr.lstrip_char c l ∧
       head (PyStr.lstrip_char c l) ≠ Some c.
Proof.
  induction l as [|d l (n & Hl & Hhead)]; simpl.
  { by exists 0%nat. }
  destruct (Ascii.eqb_spec d c) as [->|Hne].
  - exists (S n). simpl. by rewrite <-Hl.
  - exists 0%nat. simpl. split; [done|]. congruence.
Qed.

Lemma no_slash_app (l1 l2 : list ascii) :
  existsb (Ascii.eqb "/") (l1 ++ l2) =
  existsb (Ascii.eqb "/") l1 || existsb (Ascii.eqb "/") l2.
Proof. apply existsb_app. Qed.

Lemma list_ascii_of_string_append (s t : string) :
  list_ascii_of_string (s +:+ t) = list_ascii_of_string s ++ list_ascii_of_string t.
Proof. induction s as [|c s IH]; simpl; [done|]. by rewrite IH. Qed.

Lemma basename_no_slash (p : string) :
  existsb (Ascii.eqb "/") (list_ascii_of_string (PyStr.basename p)) = false.
Proof.
  induction p as [|c p IH]; simpl; [done|].
  destruct (Ascii.eqb_spec c "/") as [->|Hc]; [done|].
  destruct (existsb _ (list_ascii_of_string p)) eqn:Hp; [done|].
  change (Ascii.eqb "/" c || existsb (Ascii.eqb "/") (list_ascii_of_string p) = false).
  rewrite Hp. destruct (Ascii.eqb_spec "/" c); [congruence|done].
Qed.

Lemma basename_without_slash (p : string) :
  existsb (Ascii.eqb "/") (list_ascii_of_string p) = false →
  PyStr.basename p = p.
Proof.
  destruct p as [|c p]; simpl; [done|].
  intros [Hc Hp]%orb_false_elim. rewrite Hp.
  destruct (Ascii.eqb_spec c "/") as [->|]; [done|done].
Qed.

Lemma basename_after_slash (s t : string) :
  PyStr.basename (s +:+ "/" +:+ t) = PyStr.basename t.
Proof.
  induction s as [|c s IH]; simpl; [done|].
  destruct (Ascii.eqb c "/"); [done|].
  rewrite list_ascii_of_string_append, no_slash_app. simpl.
  by rewrite orb_true_r.
Qed.

Lemma split_nonempty (sep : ascii) (s : string) : PyStr.split sep s ≠ [].
Proof.
  destruct s as [|c s]; simpl; [done|].
  destruct (Ascii.eqb c sep); [done|]. by destruct (PyStr.split sep s).
Qed.

(** The pieces of [s], a separator and [t] are the pieces of [s]
    followed by the pieces of [t]. *)
Lemma split_app (sep : ascii) (s t : string) :
  PyStr.split sep (s +:+ String sep t) = PyStr.split sep s ++ PyStr.split sep t.
Proof.
  induction s as [|c s IH]; simpl.
  { by rewrite Ascii.eqb_refl. }
  destruct (Ascii.eqb c sep); rewrite IH; [done|].
  pose proof (split_nonempty sep s). by destruct (PyStr.split sep s).
Qed.

(** X1.  [AppcastUpdater.__init__] stores the base URL without its
    trailing slashes and nothing else removed: the stored text does not
    end in a slash, and the given URL is the stored text followed by
    slashes only. *)
Theorem base_url_without_trailing_slash (path url : string) :
  last (list_ascii_of_string (base_url (AppcastUpdater_init path url))) ≠ Some "/"%char ∧
  ∃ n, list_ascii_of_string url =
       list_ascii_of_string (base_url (AppcastUpdater_init path url)) ++ replicate n "/"%char.
Proof.
  simpl. unfold PyStr.rstrip. rewrite list_ascii_of_string_of_list_ascii.
  destruct (lstrip_char_replicate "/" (rev (list_ascii_of_string url)))
    as (n & Hl & Hhead).
  rewrite !rev_is_reverse in *. split.
  - by rewrite last_reverse.
  - exists n. rewrite <-(reverse_involutive (list_ascii_of_string url)), Hl at 1.
    by rewrite reverse_app, reverse_replicate.
Qed.

(** X2.  The download URL of an enclosure ends in the file name of the
    artifact: what follows the last slash of the URL is what follows the
    last slash of the artifact path, whatever the base URL. *)
Theorem download_url_names_the_artifact (self : AppcastUpdater) (update_info : UpdateInfo) :
  PyStr.basename (download_url self update_info) = PyStr.basename (dmg_path update_info).
Proof.
  unfold download_url. rewrite basename_after_slash.
  apply basename_without_slash, basename_no_slash.
Qed.

(** ** [version_to_tuple], further *)

(** X3.  [version_to_tuple] never returns the empty tuple: every sort
    key has a first component. *)
Theorem version_to_tuple_nonempty (version_str : option string) :
  version_to_tuple version_str ≠ [].
Proof.
  destruct version_str as [s|]; simpl; [|done].
  destruct (mapM _ _) as [t|] eqn:Ht; [|done].
  apply length_mapM in Ht. pose proof (split_nonempty "." s).
  destruct t; [|done]. by destruct (PyStr.split "." s).
Qed.

Lemma tuple_ltb_prefix (xs ys : version_tuple) :
  ys ≠ [] → tuple_ltb xs (xs ++ ys) = true.
Proof.
  intros Hys. destruct ys as [|y ys]; [done|].
  apply tuple_ltb_numeric_lt, numeric_lt_shorter.
Qed.

(** X4.  Joining two well-formed version strings with a dot joins their
    tuples, so a version extended by further components is the greater
    one: ["1.0"] is below ["1.0.0"]. *)
Theorem version_to_tuple_extension (s t : string) :
  well_formed s = true →
  well_formed t = true →
  version_to_tuple (Some (s +:+ "." +:+ t)) =
    version_to_tuple (Some s) ++ version_to_tuple (Some t) ∧
  tuple_ltb (version_to_tuple (Some s)) (version_to_tuple (Some (s +:+ "." +:+ t))) = true.
Proof.
  intros [xs Hxs]%well_formed_is_Some [ys Hys]%well_formed_is_Some.
  assert (version_to_tuple (Some (s +:+ "." +:+ t)) =
          version_to_tuple (Some s) ++ version_to_tuple (Some t)) as Heq.
  { simpl. change ("." +:+ t)%string with (String "." t).
    rewrite split_app, Hxs, Hys.
    assert (mapM PyStr.int (PyStr.split "." s ++ PyStr.split "." t) = Some (xs ++ ys))
      as -> by (apply mapM_Some_2, Forall2_app; by apply mapM_Some_1).
    done. }
  split; [done|]. rewrite Heq. apply tuple_ltb_prefix.
  simpl. rewrite Hys. intros ->. apply length_mapM in Hys.
  pose proof (split_nonempty "." t). by destruct (PyStr.split "." t).
Qed.

Lemma version_to_tuple_extension_witness :
  version_to_tuple (Some ("1.0" +:+ "." +:+ "0")) =
    version_to_tuple (Some "1.0") ++ version_to_tuple (Some "0") ∧
  tuple_ltb (version_to_tuple (Some "1.0"))
            (version_to_tuple (Some ("1.0" +:+ "." +:+ "0"))) = true.
Proof.
  apply (version_to_tuple_extension "1.0" "0").
  - reflexivity.
  - reflexivity.
Defined.

(** ** [UpdateInfo] *)

(** X5.  The generated constructor rejects every call that carries a
    keyword other than the five declared fields, [name] for one, with
    [TypeError]. *)
Theorem UpdateInfo_init_rejects_unknown_keyword (kwargs : list (string * string))
    (key value : string) :
  (key, value) ∈ kwargs →
  key ∉ UpdateInfo_fields →
  UpdateInfo_init kwargs = throw TypeError.
Proof.
  intros Hin Hkey. unfold UpdateInfo_init.
  destruct (forallb _ kwargs) eqn:Hall; [|done].
  rewrite forallb_forall in Hall.
  apply list_elem_of_In, Hall, existsb_exists in Hin as (f & Hf & Heq).
  apply String.eqb_eq in Heq. simpl in Heq. subst f.
  by apply list_elem_of_In in Hf.
Qed.

Lemma UpdateInfo_init_rejects_unknown_keyword_witness :
  UpdateInfo_init [("name", "App"); ("version", "1.0"); ("dmg_path", "App.dmg");
                   ("release_notes", "n"); ("file_size", "1"); ("signature", "s")]%string
  = throw TypeError.
Proof.
  apply (UpdateInfo_init_rejects_unknown_keyword _ "name" "App").
  - left.
  - vm_compute. intros Hin. repeat (inversion Hin as [|? ? ? Hin']; subst; clear Hin; rename Hin' into Hin); inversion Hin.
Defined.



(** ** [create_enclosure] *)

Lemma create_enclosure_ok (self : AppcastUpdater) (item : Etree.element)
    (update_info : UpdateInfo) (file_hash : string) :
  enclosure_strings_ok self update_info file_hash = true →
  create_enclosure self item update_info file_hash =
    ok (Etree.append item (built_enclosure self update_info file_hash)).
Proof.
  unfold enclosure_strings_ok, create_enclosure, built_enclosure, Etree.set.
  fold (download_url self update_info).
  generalize (download_url self update_info). intros url.
  destruct update_info as [v d r f g]. cbn [version file_size signature for_each].
  cbv beta iota zeta.
  destruct (Etree.xml_compatible url).
  2:{ intros Hf. discriminate Hf. }
  destruct (Etree.xml_compatible f).
  2:{ intros Hf. discriminate Hf. }
  destruct (Etree.xml_compatible v).
  2:{ intros Hf. discriminate Hf. }
  destruct (Etree.xml_compatible file_hash).
  2:{ intros Hf. discriminate Hf. }
  destruct (Etree.xml_compatible g).
  2:{ intros Hf. discriminate Hf. }
  intros _. 
  vm_compute. reflexivity.
Qed.

(** X7.  When the download URL, the size, the version, the hash and the
    signature are strings that lxml accepts, [create_enclosure] succeeds
    and appends to the item, as its last child, an enclosure with eight
    attributes in this order: url, length, type, then the namespaced
    version, shortVersionString, sha256, edSignature and length; both
    length attributes carry the size as the caller gave it. *)
Theorem create_enclosure_builds_enclosure (self : AppcastUpdater) (item : Etree.element)
    (update_info : UpdateInfo) (file_hash : string) :
  enclosure_strings_ok self update_info file_hash = true →
  create_enclosure self item update_info file_hash =
    ok (Etree.append item (built_enclosure self update_info file_hash)).
Proof. apply create_enclosure_ok. Qed.

Lemma create_enclosure_builds_enclosure_witness :
  create_enclosure Sample.updater (Etree.new "item") Sample.release "e3b0c442" =
    ok (Etree.append (Etree.new "item")
          (built_enclosure Sample.updater Sample.release "e3b0c442")).
Proof.
  apply (create_enclosure_builds_enclosure Sample.updater (Etree.new "item")
           Sample.release "e3b0c442").
  reflexivity.
Defined.

Lemma set_str_error (elem : Etree.element) (key s : string) (e : exn) :
  Etree.set elem key (Etree.PyStr s) = inl e →
  e = ValueError ∧ Etree.xml_compatible s = false.
Proof.
  unfold Etree.set. destruct (Etree.xml_compatible s); [done|]. by intros [= <-].
Qed.

(** X8.  [create_enclosure] raises nothing but [ValueError], and only
    when the download URL, the size, the version, the hash or the
    signature is a string that lxml rejects. *)
Theorem create_enclosure_failure (self : AppcastUpdater) (item : Etree.element)
    (update_info : UpdateInfo) (file_hash : string) (e : exn) :
  create_enclosure self item update_info file_hash = inl e →
  e = ValueError ∧ enclosure_strings_ok self update_info file_hash = false.
Proof.
  intros Hrun.
  destruct (enclosure_strings_ok self update_info file_hash) eqn:Hok.
  { by rewrite create_enclosure_ok in Hrun. }
  split; [|done]. clear Hok. revert Hrun.
  unfold create_enclosure. cbn [for_each].
  repeat match goal with
         | |- context [bind (Etree.set ?el ?k (Etree.PyStr ?s)) _] =>
             let Hset := fresh "Hset" in
             destruct (Etree.set el k (Etree.PyStr s)) as [e'|?] eqn:Hset;
             [apply set_str_error in Hset as [-> _]; by intros [= <-]|];
             clear Hset; cbn [bind result_bind]
         end.
  done.
Qed.

Lemma create_enclosure_failure_witness :
  ValueError = ValueError ∧
  enclosure_strings_ok Sample.updater
    {| version := String (ascii_of_nat 7) ""; dmg_path := "App.dmg";
       release_notes := ""; file_size := "1"; signature := "s" |} "00" = false.
Proof.
  apply (create_enclosure_failure Sample.updater (Etree.new "item")
           {| version := String (ascii_of_nat 7) ""; dmg_path := "App.dmg";
              release_notes := ""; file_size := "1"; signature := "s" |} "00").
  reflexivity.
Defined.

(** ** [sort_items], further *)

(** Decides [descending] on a list of concrete entries. *)
Ltac solve_descending :=
  unfold descending;
  repeat match goal with
         | |- StronglySorted _ _ => constructor
         | |- Forall _ _ => constructor
         end;
  vm_compute; reflexivity.

Lemma filter_none {A} (P : A → Prop) `{∀ a, Decision (P a)} (l : list A) :
  (∀ x, x ∈ l → ¬ P x) → filter P l = [].
Proof.
  induction l as [|a l IH]; intros Hl; [done|].
  rewrite filter_cons_False by (apply Hl; left).
  apply IH. intros x Hx. apply Hl. by right.
Qed.

(** A descending arrangement that keeps, for every key, the items in
    their input order is the result of [sorted] with [reverse=True]. *)
Lemma py_sorted_reverse_unique {A} (key : A → version_tuple) (l l' : list A) :
  StronglySorted (λ a b, tuple_ltb (key a) (key b) = false) l' →
  (∀ k, filter (λ a, key a = k) l' = filter (λ a, key a = k) l) →
  l' = py_sorted key l true.
Proof.
  intros Hsorted Hsame. simpl.
  rewrite <-(sort_asc_unique key (reverse l) (reverse l')).
  - by rewrite reverse_involutive.
  - apply (StronglySorted_reverse _ _ Hsorted).
  - intros k. by rewrite !filter_reverse, Hsame.
Qed.

Lemma sort_items_unique (channel : Etree.element) (l' : list Etree.element) :
  descending l' →
  (∀ k, filter (λ item, get_version item = k) l' =
        filter (λ item, get_version item = k) (Etree.findall "item" channel)) →
  l' = sort_items channel.
Proof.
  intros Hsorted Hsame. rewrite sort_items_py_sorted.
  by apply py_sorted_reverse_unique.
Qed.

(** X9.  [sort_items] is determined by two properties: the only
    arrangement that is descending by parsed version and keeps, for
    every version tuple, the items in their order in the channel is the
    list that [sort_items] returns. *)
Theorem sort_items_characterised (channel : Etree.element) (l' : list Etree.element) :
  descending l' →
  (∀ k, filter (λ item, get_version item = k) l' =
        filter (λ item, get_version item = k) (Etree.findall "item" channel)) →
  l' = sort_items channel.
Proof. apply sort_items_unique. Qed.

Lemma sort_items_characterised_witness :
  [Sample.entry "2.0" "newer"; Sample.entry "1.0" "first"; Sample.entry "1.0" "second"]
  = sort_items (Sample.channel [Sample.entry "1.0" "first"; Sample.entry "2.0" "newer";
                                Sample.entry "1.0" "second"]).
Proof.
  apply sort_items_characterised.
  - solve_descending.
  - intros k.
    change (Etree.findall "item" _)
      with [Sample.entry "1.0" "first"; Sample.entry "2.0" "newer";
            Sample.entry "1.0" "second"].
    rewrite !filter_cons, !filter_nil.
    change (get_version (Sample.entry "2.0" "newer")) with [2; 0].
    change (get_version (Sample.entry "1.0" "first")) with [1; 0].
    change (get_version (Sample.entry "1.0" "second")) with [1; 0].
    repeat case_decide; congruence.
Defined.

(** X10.  A channel whose items are already in descending order is left
    in that order. *)
Theorem sort_items_sorted_input (channel : Etree.element) :
  descending (Etree.findall "item" channel) →
  sort_items channel = Etree.findall "item" channel.
Proof. intros Hsorted. symmetry. by apply sort_items_unique. Qed.

Lemma sort_items_sorted_input_witness :
  sort_items (Sample.channel [Sample.entry "2.0" "newer"; Sample.entry "1.0" "first"])
  = Etree.findall "item"
      (Sample.channel [Sample.entry "2.0" "newer"; Sample.entry "1.0" "first"]).
Proof.
  apply sort_items_sorted_input.
  change (descending [Sample.entry "2.0" "newer"; Sample.entry "1.0" "first"]).
  solve_descending.
Defined.

(** X11.  Sorting twice changes nothing: a channel that holds the items
    in the order [sort_items] returned is sorted to the same list. *)
Theorem sort_items_idempotent (channel channel' : Etree.element) :
  Etree.findall "item" channel' = sort_items channel →
  sort_items channel' = sort_items channel.
Proof.
  intros Hitems. rewrite <-Hitems. symmetry. apply sort_items_unique; [|done].
  rewrite Hitems. apply sort_items_descending.
Qed.

Lemma sort_items_idempotent_witness :
  sort_items (Sample.channel [Sample.entry "2.0" "newer"; Sample.entry "1.0" "first"])
  = sort_items (Sample.channel [Sample.entry "1.0" "first"; Sample.entry "2.0" "newer"]).
Proof.
  apply sort_items_idempotent. vm_compute. reflexivity.
Defined.

(** X12.  A new item whose version is greater than the version of
    every item of the channel is sorted to the front, and the items
    that were there follow in their sorted order. *)
Theorem sort_items_newest_first (channel item : Etree.element) :
  Etree.tag item = "item"%string →
  (∀ x, x ∈ Etree.findall "item" channel →
        tuple_ltb (get_version x) (get_version item) = true) →
  sort_items (Etree.append channel item) = item :: sort_items channel.
Proof.
  intros Htag Hnew. symmetry. apply sort_items_unique.
  - apply StronglySorted_cons. split; [|apply sort_items_descending].
    rewrite Forall_forall. intros x Hx. rewrite sort_items_Permutation in Hx.
    by apply tuple_ltb_asym, Hnew.
  - intros k. rewrite findall_append by done.
    rewrite filter_app, !filter_cons, filter_nil, sort_items_filter.
    destruct (decide (get_version item = k)) as [Hk|Hk]; [|by rewrite app_nil_r].
    assert (filter (λ x, get_version x = k) (Etree.findall "item" channel) = [])
      as ->; [|done].
    apply filter_none. intros x Hx Heq.
    specialize (Hnew x Hx). by rewrite Heq, <-Hk, tuple_ltb_irrefl in Hnew.
Qed.

Lemma sort_items_newest_first_witness :
  sort_items (Etree.append (Sample.channel [Sample.entry "1.0" "first"])
                           (Sample.entry "2.0" "newer"))
  = Sample.entry "2.0" "newer" :: sort_items (Sample.channel [Sample.entry "1.0" "first"]).
Proof.
  apply sort_items_newest_first.
  - reflexivity.
  - intros x Hx. vm_compute in Hx.
    apply list_elem_of_singleton in Hx. subst x. reflexivity.
Defined.

(** X13.  A new item whose version is not greater than the version of
    any item of the channel is sorted to the end: behind the items with
    smaller or greater versions alike, and behind the items that have
    its own version. *)
Theorem sort_items_not_newer_last (channel item : Etree.element) :
  Etree.tag item = "item"%string →
  (∀ x, x ∈ Etree.findall "item" channel →
        tuple_ltb (get_version x) (get_version item) = false) →
  sort_items (Etree.append channel item) = sort_items channel ++ [item].
Proof.
  intros Htag Hold. symmetry. apply sort_items_unique.
  - apply StronglySorted_app_2.
    + intros x y Hx ->%list_elem_of_singleton.
      rewrite sort_items_Permutation in Hx. by apply Hold.
    + apply sort_items_descending.
    + repeat constructor.
  - intros k. by rewrite findall_append, !filter_app, sort_items_filter.
Qed.

Lemma sort_items_not_newer_last_witness :
  sort_items (Etree.append (Sample.channel [Sample.entry "1.0" "first"])
                           (Sample.entry "1.0" "second"))
  = sort_items (Sample.channel [Sample.entry "1.0" "first"]) ++ [Sample.entry "1.0" "second"].
Proof.
  apply sort_items_not_newer_last.
  - reflexivity.
  - intros x Hx. vm_compute in Hx.
    apply list_elem_of_singleton in Hx. subst x. reflexivity.
Defined.

(** ** The reordering step, further *)

(** X14.  Whenever the channel holds at least one item, the reordering
    step raises [AttributeError], [TypeError] or [ValueError] in its
    first round, and leaves the channel with every item removed and its
    other children as they were. *)
Theorem reorder_items_always_raises (channel : Etree.element) :
  Etree.findall "item" channel ≠ [] →
  ∃ e, reorder_items channel = (inl e, Etree.remove_all "item" channel) ∧
       (e = AttributeError ∨ e = TypeError ∨ e = ValueError) ∧
       Etree.findall "item" (Etree.remove_all "item" channel) = [] ∧
       Etree.children (Etree.remove_all "item" channel) =
         List.filter (λ c, negb (Etree.has_tag "item" c)) (Etree.children channel).
Proof.
  intros Hitems. destruct (reorder_items_raises channel Hitems) as (e & Hrun & He).
  exists e. by rewrite findall_remove_all.
Qed.

Lemma reorder_items_always_raises_witness :
  ∃ e, reorder_items (Sample.channel [Sample.bare_entry "1.0"])
       = (inl e, Etree.remove_all "item" (Sample.channel [Sample.bare_entry "1.0"])) ∧
       (e = AttributeError ∨ e = TypeError ∨ e = ValueError) ∧
       Etree.findall "item"
         (Etree.remove_all "item" (Sample.channel [Sample.bare_entry "1.0"])) = [] ∧
       Etree.children (Etree.remove_all "item" (Sample.channel [Sample.bare_entry "1.0"])) =
         List.filter (λ c, negb (Etree.has_tag "item" c))
           (Etree.children (Sample.channel [Sample.bare_entry "1.0"])).
Proof.
  apply reorder_items_always_raises. vm_compute. discriminate.
Defined.

(** X15.  The exception of the reordering step is decided by the item
    with the greatest version alone: when that item, the first in
    sorted order, has no [description] child the step raises
    [AttributeError]; when it has one with a text that [CDATA] accepts,
    the step raises the [TypeError] of [set]. *)
Theorem reorder_items_exception (channel first : Etree.element)
    (rest : list Etree.element) :
  sort_items channel = first :: rest →
  (reorder_items channel).1 =
    match Etree.find "description" first with
    | None => inl AttributeError
    | Some description =>
        match Etree.CDATA (Etree.get_text description) with
        | inl e => inl e
        | inr _ => inl TypeError
        end
    end.
Proof.
  intros Hsorted. unfold reorder_items. rewrite Hsorted. cbn [readd_items].
  unfold readd_item.
  destruct (Etree.find "description" first) as [description|]; [|done].
  unfold Etree.CDATA.
  destruct (Etree.get_text description) as [s|]; [|done].
  destruct (negb (Etree.xml_compatible s)); [done|].
  by destruct (PyStr.contains "]]>" s).
Qed.

Lemma reorder_items_exception_witness :
  (reorder_items (Sample.channel [Sample.entry "1.0" "first"; Sample.bare_entry "2.0"])).1 =
    match Etree.find "description" (Sample.bare_entry "2.0") with
    | None => inl AttributeError
    | Some description =>
        match Etree.CDATA (Etree.get_text description) with
        | inl e => inl e
        | inr _ => inl TypeError
        end
    end.
Proof.
  apply (reorder_items_exception _ _ [Sample.entry "1.0" "first"]).
  vm_compute. reflexivity.
Defined.

(** ** [calculate_file_hash], further *)

Lemma read_blocks_bounds (n : nat) (data : list byte) (fuel : nat) :
  (0 < n)%nat →
  Forall (λ block, (0 < length block ≤ n)%nat) (read_blocks fuel n data).
Proof.
  intros Hn. revert data. induction fuel as [|fuel IH]; intros data; [constructor|].
  destruct data as [|b data]; [constructor|].
  change (read_blocks (S fuel) n (b :: data))
    with (take n (b :: data) :: read_blocks fuel n (drop n (b :: data))).
  constructor; [|apply IH].
  rewrite length_take. simpl. lia.
Qed.

(** X16.  For a readable file [calculate_file_hash] returns the digest
    of the whole content, fed to the hash in blocks that are never
    empty and never longer than 4096 bytes; it opens that file and does
    nothing else to the world. *)
Theorem calculate_file_hash_reads_whole_file `{Platform} (self : AppcastUpdater)
    (file_path : string) (w : world) (data : list byte) :
  files w !! file_path = Some (File data) →
  ∃ blocks,
    calculate_file_hash self file_path w =
      (inr (sha256_hexdigest (foldl sha256_update sha256_new blocks)),
       after [EvOpenRead file_path] w) ∧
    concat blocks = data ∧
    Forall (λ block, (0 < length block ≤ 4096)%nat) blocks.
Proof.
  intros Hfile. exists (read_blocks (length data) 4096 data).
  rewrite calculate_file_hash_eq, Hfile. split; [done|]. split.
  - apply read_blocks_concat; lia.
  - apply read_blocks_bounds. lia.
Qed.

Lemma calculate_file_hash_reads_whole_file_witness :
  let w := Sample.world_with None (Some (File [x01; x02; x03]%byte)) in
  ∃ blocks,
    @calculate_file_hash Sample.platform Sample.updater "build/App.dmg" w =
      (inr (@sha256_hexdigest Sample.platform
              (foldl (@sha256_update Sample.platform) (@sha256_new Sample.platform) blocks)),
       after [EvOpenRead "build/App.dmg"] w) ∧
    concat blocks = [x01; x02; x03]%byte ∧
    Forall (λ block, (0 < length block ≤ 4096)%nat) blocks.
Proof.
  apply (@calculate_file_hash_reads_whole_file Sample.platform Sample.updater).
  reflexivity.
Defined.

(** ** [create_or_load_xml], further *)

(** X17.  [create_or_load_xml] never lets a [ParseError] or an
    [OSError] escape: what it raises is [AppcastError] "Failed to
    create/load XML" with one of the two as cause, or the
    [AttributeError] of the missing [name]; and it has not changed a
    file. *)
Theorem create_or_load_xml_errors `{Platform} (self : AppcastUpdater)
    (update_info : UpdateInfo) (w : world) (e : exn) :
  (create_or_load_xml self update_info w).1 = inl e →
  files (create_or_load_xml self update_info w).2 = files w ∧
  (e = AttributeError ∨
   e = AppcastError "Failed to create/load XML" ParseError ∨
   e = AppcastError "Failed to create/load XML" OSError).
Proof.
  rewrite create_or_load_xml_eq.
  destruct (files w !! appcast_path self) as [[data| |]|]; simpl.
  - destruct (etree_parse data); intros [= <-]; auto.
  - intros [= <-]; auto.
  - intros [= <-]; auto.
  - intros [= <-]; auto.
Qed.

Lemma create_or_load_xml_errors_witness :
  let w := Sample.world_with (Some (File [x00]%byte)) None in
  files (@create_or_load_xml Sample.platform Sample.updater Sample.release w).2 = files w ∧
  (AppcastError "Failed to create/load XML" ParseError = AttributeError ∨
   AppcastError "Failed to create/load XML" ParseError =
     AppcastError "Failed to create/load XML" ParseError ∨
   AppcastError "Failed to create/load XML" ParseError =
     AppcastError "Failed to create/load XML" OSError).
Proof.
  apply (@create_or_load_xml_errors Sample.platform Sample.updater Sample.release).
  vm_compute. reflexivity.
Defined.

(** X18.  For a feed file that exists, document resolution does not
    depend on the release: two releases get the same document or the
    same error, and the same world. *)
Theorem create_or_load_xml_ignores_release `{Platform} (self : AppcastUpdater)
    (update_info update_info' : UpdateInfo) (w : world) :
  is_Some (files w !! appcast_path self) →
  create_or_load_xml self update_info w = create_or_load_xml self update_info' w.
Proof.
  intros [node Hnode]. by rewrite !create_or_load_xml_eq, Hnode.
Qed.

Lemma create_or_load_xml_ignores_release_witness :
  let w := Sample.world_with (Some (File [x01]%byte)) None in
  @create_or_load_xml Sample.platform Sample.updater Sample.release w =
  @create_or_load_xml Sample.platform Sample.updater
    {| version := "9.9"; dmg_path := ""; release_notes := ""; file_size := "";
       signature := "" |} w.
Proof.
  apply (@create_or_load_xml_ignores_release Sample.platform).
  vm_compute. eexists. reflexivity.
Defined.

(** ** [write_xml] *)

Lemma write_xml_eq `{Platform} (self : AppcastUpdater) (root : Etree.element) (w : world) :
  write_xml self root w =
    if PyStr.has_nul (appcast_path self)
    then (inl ValueError, after [EvWrite (appcast_path self)] w)
    else if bool_decide (appcast_path self ∈ locked w)
    then (inl (AppcastError "Failed to write XML file" OSError),
          after [EvWrite (appcast_path self)] w)
    else
      match locale_encode (etree_tostring root) with
      | None => (inl ValueError, stored (appcast_path self) [] w)
      | Some encoded =>
          match room w !! appcast_path self with
          | Some n =>
              if (n <? length encoded)%nat
              then (inl (AppcastError "Failed to write XML file" OSError),
                    stored (appcast_path self) (take n encoded) w)
              else (inr tt, stored (appcast_path self) encoded w)
          | None => (inr tt, stored (appcast_path self) encoded w)
          end
      end.
Proof.
  unfold write_xml, wrap_errors, write_text, bind, M_bind, log, get_world, raise,
    put_files, after, stored. cbn [files locked room now trace app].
  destruct (PyStr.has_nul (appcast_path self)); [done|].
  destruct (bool_decide (appcast_path self ∈ locked w)); [done|].
  destruct (locale_encode (etree_tostring root)) as [encoded|]; [|done].
  destruct (room w !! appcast_path self) as [n|]; [|done].
  by destruct (n <? length encoded)%nat.
Qed.

(** The files after a call of [write_xml]: as they were when the feed
    path cannot be opened, and otherwise with the feed path replaced. *)
Lemma write_xml_files `{Platform} (self : AppcastUpdater) (root : Etree.element) (w : world) :
  files (write_xml self root w).2 = files w ∧
    (PyStr.has_nul (appcast_path self) = true ∨ appcast_path self ∈ locked w) ∨
  ∃ bytes,
    files (write_xml self root w).2 = <[appcast_path self := File bytes]> (files w) ∧
    PyStr.has_nul (appcast_path self) = false ∧ appcast_path self ∉ locked w.
Proof.
  rewrite write_xml_eq.
  destruct (PyStr.has_nul (appcast_path self)); [left; auto|].
  destruct (bool_decide_reflect (appcast_path self ∈ locked w)) as [Hin|Hfree];
    [left; auto|].
  right.
  destruct (locale_encode (etree_tostring root)) as [encoded|]; [|by eexists].
  destruct (room w !! appcast_path self) as [n|]; [|by eexists].
  destruct (n <? length encoded)%nat; by eexists.
Qed.

(** No call of [write_xml] puts a file at a path with a NUL character:
    worlds in which such paths name no node stay so. *)
Lemma write_xml_nul_free `{Platform} (self : AppcastUpdater) (root : Etree.element)
    (w : world) :
  (∀ path, PyStr.has_nul path = true → files w !! path = None) →
  ∀ path, PyStr.has_nul path = true → files (write_xml self root w).2 !! path = None.
Proof.
  intros Hw path Hpath.
  destruct (write_xml_files self root w) as [[-> _]|(bytes & -> & Hnul & _)]; [by apply Hw|].
  rewrite lookup_insert_ne by congruence. by apply Hw.
Qed.

(** No call of [write_xml] changes what can be written where. *)
Lemma write_xml_frame `{Platform} (self : AppcastUpdater) (root : Etree.element) (w : world) :
  locked (write_xml self root w).2 = locked w ∧ room (write_xml self root w).2 = room w.
Proof.
  rewrite write_xml_eq.
  destruct (PyStr.has_nul (appcast_path self)); [done|].
  destruct (bool_decide (appcast_path self ∈ locked w)); [done|].
  destruct (locale_encode (etree_tostring root)) as [encoded|]; [|done].
  destruct (room w !! appcast_path self) as [n|]; [|done].
  by destruct (n <? length encoded)%nat.
Qed.

(** X19.  When the feed path can be opened for writing, the locale can
    encode the serialized document and the device has room for it,
    [write_xml] returns normally; afterwards the file at the feed path
    holds the document in the encoding of the locale, and every other
    path holds what it held before. *)
Theorem write_xml_replaces_feed_only `{Platform} (self : AppcastUpdater)
    (root : Etree.element) (w : world) (bytes : list byte) :
  PyStr.has_nul (appcast_path self) = false →
  appcast_path self ∉ locked w →
  locale_encode (etree_tostring root) = Some bytes →
  (∀ n, room w !! appcast_path self = Some n → (length bytes ≤ n)%nat) →
  (write_xml self root w).1 = inr tt ∧
  files (write_xml self root w).2 !! appcast_path self = Some (File bytes) ∧
  ∀ path, path ≠ appcast_path self →
          files (write_xml self root w).2 !! path = files w !! path.
Proof.
  intros Hnul Hfree Hencode Hroom.
  rewrite write_xml_eq, Hnul, bool_decide_eq_false_2, Hencode by done.
  destruct (room w !! appcast_path self) as [n|] eqn:Hn.
  - specialize (Hroom n eq_refl).
    rewrite (proj2 (Nat.ltb_ge n (length bytes)) Hroom). cbn [fst snd stored files].
    split; [done|]. split; [apply lookup_insert_eq|].
    intros path Hpath. by apply lookup_insert_ne.
  - cbn [fst snd stored files].
    split; [done|]. split; [apply lookup_insert_eq|].
    intros path Hpath. by apply lookup_insert_ne.
Qed.

Lemma write_xml_replaces_feed_only_witness :
  let w := Sample.world_with (Some (File [x00]%byte)) (Some (File [])) in
  (@write_xml Sample.platform Sample.updater (Sample.rss []) w).1 = inr tt ∧
  files (@write_xml Sample.platform Sample.updater (Sample.rss []) w).2 !! "appcast.xml"
    = Some (File [x01]%byte) ∧
  ∀ path, path ≠ "appcast.xml"%string →
          files (@write_xml Sample.platform Sample.updater (Sample.rss []) w).2 !! path
          = files w !! path.
Proof.
  apply (@write_xml_replaces_feed_only Sample.platform Sample.updater (Sample.rss [])).
  - reflexivity.
  - vm_compute. set_solver.
  - reflexivity.
  - intros n. vm_compute. discriminate.
Defined.





(** X22.  [write_xml] overwrites: after two writes the files are what
    the second write alone would have left. *)
Theorem write_xml_last_write_wins `{Platform} (self : AppcastUpdater)
    (root1 root2 : Etree.element) (w : world) :
  appcast_path self ∉ locked w →
  files (write_xml self root2 (write_xml self root1 w).2).2 =
  files (write_xml self root2 w).2.
Proof.
  intros Hfree.
  destruct (write_xml_frame self root1 w) as [Hlocked Hroom].
  rewrite (write_xml_eq self root2 (write_xml self root1 w).2), (write_xml_eq self root2 w).
  rewrite Hlocked, Hroom.
  destruct (PyStr.has_nul (appcast_path self)) eqn:Hnul.
  { cbn [snd after files].
    destruct (write_xml_files self root1 w) as [[-> _]|(bytes & _ & Hnul' & _)];
      [done|congruence]. }
  rewrite bool_decide_eq_false_2 by done.
  assert (∀ bytes, files (stored (appcast_path self) bytes (write_xml self root1 w).2) =
                   files (stored (appcast_path self) bytes w)) as Hsame.
  { intros bytes. cbn [stored files].
    destruct (write_xml_files self root1 w) as [[-> _]|(bytes1 & -> & _)];
      [done|apply insert_insert_eq]. }
  destruct (locale_encode (etree_tostring root2)) as [encoded|]; [|apply Hsame].
  destruct (room w !! appcast_path self) as [n|];
    [destruct (n <? length encoded)%nat|]; apply Hsame.
Qed.

Lemma write_xml_last_write_wins_witness :
  let w := Sample.world_with None None in
  files (@write_xml Sample.platform Sample.updater (Sample.rss [])
           (@write_xml Sample.platform Sample.updater (Etree.new "rss") w).2).2 =
  files (@write_xml Sample.platform Sample.updater (Sample.rss []) w).2.
Proof.
  apply (@write_xml_last_write_wins Sample.platform Sample.updater).
  vm_compute. set_solver.
Defined.

(** ** [add_update], further *)

Section AddUpdateFacts.

Context `{Platform}.

(** X23.  When the lookup of the feed path reports that there is no
    such file, [add_update] fails right after the existence test, with
    the [AttributeError] of the missing [name] as cause: the artifact
    is not opened and nothing is written.  A first release cannot be
    published.  (A feed path that the operating system refuses to look
    up is another case: there the existence test itself raises, and
    the cause is the error of document resolution.) *)
Theorem add_update_without_feed (self : AppcastUpdater) (update_info : UpdateInfo)
    (w : world) :
  files w !! appcast_path self = None →
  add_update self update_info w =
    (inl (AppcastError "Failed to add update" AttributeError),
     after [EvExists (appcast_path self)] w).
Proof.
  intros Hfile. unfold add_update, wrap_errors, add_update_body.
  by rewrite bind_M_eq, create_or_load_xml_eq, Hfile.
Qed.

(** X24.  With a feed path that exists but cannot be read [add_update]
    fails with the error of document resolution, caused by the
    [OSError] of the parser, before the artifact is opened. *)
Theorem add_update_unreadable_feed (self : AppcastUpdater) (update_info : UpdateInfo)
    (w : world) :
  files w !! appcast_path self = Some Unreadable →
  add_update self update_info w =
    (inl (AppcastError "Failed to add update"
            (AppcastError "Failed to create/load XML" OSError)),
     after [EvParse (appcast_path self); EvExists (appcast_path self)] w).
Proof.
  intros Hfile. unfold add_update, wrap_errors, add_update_body.
  by rewrite bind_M_eq, create_or_load_xml_eq, Hfile.
Qed.

(** X25.  With a feed whose root element has no [channel] child
    [add_update] fails with the [TypeError] of [SubElement(None, ...)]
    as cause, before the artifact is opened. *)
Theorem add_update_without_channel (self : AppcastUpdater) (update_info : UpdateInfo)
    (w : world) (data : list byte) (root : Etree.element) :
  files w !! appcast_path self = Some (File data) →
  etree_parse data = Some root →
  Etree.find "channel" root = None →
  add_update self update_info w =
    (inl (AppcastError "Failed to add update" TypeError),
     after [EvParse (appcast_path self); EvExists (appcast_path self)] w).
Proof.
  intros Hfile Hparse Hchannel. unfold add_update, wrap_errors, add_update_body.
  by rewrite bind_M_eq, create_or_load_xml_eq, Hfile, Hparse, Hchannel.
Qed.

Lemma sub_element_text_cdata (parent : Etree.element) (t s : string) :
  Etree.sub_element_text parent t (Etree.PyCDATA s) =
    inr (Etree.append parent (text_element t (Etree.CDataText s))).
Proof. reflexivity. Qed.

(** With inputs that lxml accepts, a feed that resolves to a document
    with a channel and a readable artifact, the run reaches the
    reordering step with the entry of the release appended to the
    channel. *)
Lemma add_update_body_valid (self : AppcastUpdater) (update_info : UpdateInfo)
    (w : world) (data artifact : list byte) (root channel : Etree.element) :
  files w !! appcast_path self = Some (File data) →
  etree_parse data = Some root →
  Etree.find "channel" root = Some channel →
  files w !! dmg_path update_info = Some (File artifact) →
  valid_release self update_info (now w) (digest_of artifact) = true →
  add_update_body self update_info w =
    let w' := after [EvOpenRead (dmg_path update_info); EvParse (appcast_path self);
                     EvExists (appcast_path self)] w in
    match reorder_items
            (Etree.append channel
               (built_entry self update_info (now w) (digest_of artifact))) with
    | (inl e, _) => (inl e, w')
    | (inr _, channel') =>
        write_xml self (Etree.with_child "channel" channel' root) w'
    end.
Proof.
  intros Hfile Hparse Hchannel Hartifact.
  unfold valid_release. rewrite !andb_true_iff, negb_true_iff.
  intros [[[Hnow Hstrings] Hnotes] Hcdata].
  assert (Etree.xml_compatible (version update_info) = true) as Hversion.
  { unfold enclosure_strings_ok in Hstrings. rewrite !andb_true_iff in Hstrings. tauto. }
  unfold add_update_body.
  rewrite bind_M_eq, create_or_load_xml_eq, Hfile, Hparse, Hchannel.
  rewrite bind_M_eq, sub_element_text_str by exact Hversion. unfold lift at 1.
  rewrite bind_M_eq. unfold strftime_now at 1, get_world, ret.
  rewrite bind_M_eq. cbn [now after].
  rewrite bind_M_eq, sub_element_text_str by exact Hnow. unfold lift at 1.
  rewrite bind_M_eq, calculate_file_hash_eq. cbn [files after]. rewrite Hartifact.
  fold (digest_of artifact).
  rewrite bind_M_eq, create_enclosure_ok by exact Hstrings. unfold lift at 1, ok.
  rewrite bind_M_eq. cbn [for_each]. rewrite sub_element_text_str by exact Hversion.
  cbn [bind result_bind]. rewrite sub_element_text_str by exact Hversion.
  cbn [bind result_bind]. unfold lift at 1, ok.
  rewrite bind_M_eq. unfold Etree.CDATA. rewrite Hnotes, Hcdata. cbn [negb].
  unfold lift at 1, ok.
  rewrite bind_M_eq, sub_element_text_cdata. unfold lift at 1.
  change (Etree.append
            (Etree.append
               (Etree.append
                  (Etree.append
                     (Etree.append (Etree.append (Etree.new "item") _) _) _) _) _) _)
    with (built_entry self update_info (now w) (digest_of artifact)).
  rewrite after_after. cbn [app].
  by destruct (reorder_items _) as [[e|[]] channel'].
Qed.

(** X26.  With inputs that lxml accepts, a feed that resolves to a
    document with a channel and a readable artifact, [add_update] does
    three I/O operations, the existence test, the parse and the read of
    the artifact, and then fails in the reordering step: the cause it
    reports is the exception of that step on the channel with the entry
    of the release appended, that is title, publication date, enclosure,
    the two version elements and the release notes as CDATA. *)
Theorem add_update_valid_release (self : AppcastUpdater) (update_info : UpdateInfo)
    (w : world) (data artifact : list byte) (root channel : Etree.element) :
  files w !! appcast_path self = Some (File data) →
  etree_parse data = Some root →
  Etree.find "channel" root = Some channel →
  files w !! dmg_path update_info = Some (File artifact) →
  valid_release self update_info (now w) (digest_of artifact) = true →
  ∃ e,
    (reorder_items
       (Etree.append channel
          (built_entry self update_info (now w) (digest_of artifact)))).1 = inl e ∧
    add_update self update_info w =
      (inl (AppcastError "Failed to add update" e),
       after [EvOpenRead (dmg_path update_info); EvParse (appcast_path self);
              EvExists (appcast_path self)] w).
Proof.
  intros Hfile Hparse Hchannel Hartifact Hvalid.
  unfold add_update, wrap_errors.
  rewrite (add_update_body_valid _ _ _ _ _ _ _ Hfile Hparse Hchannel Hartifact Hvalid).
  destruct (reorder_items_raises
              (Etree.append channel
                 (built_entry self update_info (now w) (digest_of artifact))))
    as (e & Hrun & _).
  { rewrite findall_append by done. by destruct (Etree.findall _ _). }
  exists e. by rewrite Hrun.
Qed.

(** The sort key of the entry of a release is the parsed version of the
    release, and the entry has a [description] child that holds the
    release notes. *)
Lemma built_entry_key (self : AppcastUpdater) (update_info : UpdateInfo)
    (pub_date file_hash : string) :
  get_version (built_entry self update_info pub_date file_hash) =
    version_to_tuple (Some (version update_info)) ∧
  Etree.find "description" (built_entry self update_info pub_date file_hash) =
    Some (text_element "description" (Etree.CDataText (release_notes update_info))).
Proof. split; reflexivity. Qed.

(** X27.  Publishing a release that is newer than every entry of the
    feed, with inputs that lxml accepts and a readable artifact, fails
    with [TypeError]: the new entry is the first in sorted order, and
    [set] rejects the [CDATA] object made from its release notes. *)
Theorem add_update_newer_release (self : AppcastUpdater) (update_info : UpdateInfo)
    (w : world) (data artifact : list byte) (root channel : Etree.element) :
  files w !! appcast_path self = Some (File data) →
  etree_parse data = Some root →
  Etree.find "channel" root = Some channel →
  files w !! dmg_path update_info = Some (File artifact) →
  valid_release self update_info (now w) (digest_of artifact) = true →
  (∀ x, x ∈ Etree.findall "item" channel →
        tuple_ltb (get_version x) (version_to_tuple (Some (version update_info))) = true) →
  add_update self update_info w =
    (inl (AppcastError "Failed to add update" TypeError),
     after [EvOpenRead (dmg_path update_info); EvParse (appcast_path self);
            EvExists (appcast_path self)] w).
Proof.
  intros Hfile Hparse Hchannel Hartifact Hvalid Hnewer.
  unfold add_update, wrap_errors.
  rewrite (add_update_body_valid _ _ _ _ _ _ _ Hfile Hparse Hchannel Hartifact Hvalid).
  set (entry := built_entry self update_info (now w) (digest_of artifact)).
  assert (sort_items (Etree.append channel entry) = entry :: sort_items channel)
    as Hsorted by (by apply sort_items_newest_first).
  unfold reorder_items. rewrite Hsorted. cbn [readd_items].
  unfold readd_item.
  change (Etree.find "description" entry)
    with (Some (text_element "description" (Etree.CDataText (release_notes update_info)))).
  unfold valid_release in Hvalid. rewrite !andb_true_iff, negb_true_iff in Hvalid.
  destruct Hvalid as [[_ Hnotes] Hcdata].
  unfold Etree.CDATA. cbn [Etree.get_text text_element Etree.text].
  by rewrite Hnotes, Hcdata.
Qed.

End AddUpdateFacts.

Lemma add_update_without_feed_witness :
  let w := Sample.world_with None (Some (File [])) in
  @add_update Sample.platform Sample.updater Sample.release w =
    (inl (AppcastError "Failed to add update" AttributeError),
     after [EvExists "appcast.xml"] w).
Proof.
  apply (@add_update_without_feed Sample.platform Sample.updater Sample.release).
  reflexivity.
Defined.

Lemma add_update_unreadable_feed_witness :
  let w := Sample.world_with (Some Unreadable) (Some (File [])) in
  @add_update Sample.platform Sample.updater Sample.release w =
    (inl (AppcastError "Failed to add update"
            (AppcastError "Failed to create/load XML" OSError)),
     after [EvParse "appcast.xml"; EvExists "appcast.xml"] w).
Proof.
  apply (@add_update_unreadable_feed Sample.platform Sample.updater Sample.release).
  reflexivity.
Defined.

Lemma add_update_without_channel_witness :
  let w := Sample.world_with (Some (File [x03]%byte)) (Some (File [])) in
  @add_update Sample2.platform Sample.updater Sample.release w =
    (inl (AppcastError "Failed to add update" TypeError),
     after [EvParse "appcast.xml"; EvExists "appcast.xml"] w).
Proof.
  apply (@add_update_without_channel Sample2.platform Sample.updater Sample.release _
           [x03]%byte (Etree.new "rss")).
  - reflexivity.
  - reflexivity.
  - reflexivity.
Defined.



Lemma add_update_valid_release_witness :
  let w := Sample.world_with (Some (File [x01]%byte)) (Some (File [])) in
  ∃ e,
    (reorder_items
       (Etree.append (Sample.channel [Sample.entry "1.0" "first"])
          (built_entry Sample.updater Sample.release (now w)
             (@digest_of Sample.platform [])))).1 = inl e ∧
    @add_update Sample.platform Sample.updater Sample.release w =
      (inl (AppcastError "Failed to add update" e),
       after [EvOpenRead "build/App.dmg"; EvParse "appcast.xml"; EvExists "appcast.xml"] w).
Proof.
  apply (@add_update_valid_release Sample.platform Sample.updater Sample.release _
           [x01]%byte [] (Sample.rss [Sample.entry "1.0" "first"])).
  - reflexivity.
  - reflexivity.
  - reflexivity.
  - reflexivity.
  - reflexivity.
Defined.

Lemma add_update_newer_release_witness :
  let w := Sample.world_with (Some (File [x01]%byte)) (Some (File [])) in
  @add_update Sample.platform Sample.updater
    {| version := "1.1"; dmg_path := "build/App.dmg"; release_notes := "<p>Fixes</p>";
       file_size := "1024"; signature := "c2ln" |} w =
    (inl (AppcastError "Failed to add update" TypeError),
     after [EvOpenRead "build/App.dmg"; EvParse "appcast.xml"; EvExists "appcast.xml"] w).
Proof.
  apply (@add_update_newer_release Sample.platform Sample.updater
           {| version := "1.1"; dmg_path := "build/App.dmg";
              release_notes := "<p>Fixes</p>"; file_size := "1024";
              signature := "c2ln" |}
           (Sample.world_with (Some (File [x01]%byte)) (Some (File [])))
           [x01]%byte [] (Sample.rss [Sample.entry "1.0" "first"])
           (Sample.channel [Sample.entry "1.0" "first"])).
  - reflexivity.
  - reflexivity.
  - reflexivity.
  - reflexivity.
  - reflexivity.
  - intros x Hx. vm_compute in Hx.
    apply list_elem_of_singleton in Hx. subst x. reflexivity.
Defined.

(** ** The I/O of [add_update] *)

Lemma performs_lift {A} (P : event → Prop) (r : result A) : performs P (lift r).
Proof. intros w. exists r, []. split; [by destruct w|constructor]. Qed.

Lemma performs_strftime_now (P : event → Prop) : performs P strftime_now.
Proof. intros w. exists (inr (now w)), []. split; [by destruct w|constructor]. Qed.

Lemma fails_performing_raise {A} (P : event → Prop) (e : exn) :
  fails_performing P (raise (A:=A) e).
Proof. intros w. exists e, []. split; [by destruct w|constructor]. Qed.

Lemma fails_performing_bind {A B} (P : event → Prop) (c : M A) (k : A → M B) :
  performs P c →
  (∀ a, (∃ w, (c w).1 = inr a) → fails_performing P (k a)) →
  fails_performing P (let* a := c in k a).
Proof.
  intros Hc Hk w. rewrite bind_M_eq.
  destruct (Hc w) as (r & evs1 & Hrun & Hevs1).
  destruct r as [e|a].
  { exists e, evs1. by rewrite Hrun. }
  destruct (Hk a) with (after evs1 w) as (e & evs2 & Hk' & Hevs2).
  { exists w. by rewrite Hrun. }
  exists e, (evs2 ++ evs1). rewrite Hrun, Hk', after_after.
  split; [done|]. by apply Forall_app_2.
Qed.

(** X29.  Every call of [add_update] ends in [AppcastError] "Failed to
    add update" and leaves every file as it was.  Its I/O is confined
    to the existence test and the parse of the feed path and the read
    of the artifact: no other path is touched and nothing is written. *)
Theorem add_update_io `{Platform} (self : AppcastUpdater) (update_info : UpdateInfo)
    (w : world) :
  ∃ cause evs,
    add_update self update_info w =
      (inl (AppcastError "Failed to add update" cause), after evs w) ∧
    Forall (λ ev, ev ∈ [EvExists (appcast_path self); EvParse (appcast_path self);
                        EvOpenRead (dmg_path update_info)]) evs.
Proof.
  set (P := λ ev, ev ∈ [EvExists (appcast_path self); EvParse (appcast_path self);
                        EvOpenRead (dmg_path update_info)]).
  assert (fails_performing P (add_update_body self update_info)) as Hbody.
  { unfold add_update_body.
    apply fails_performing_bind.
    { intros w0. rewrite create_or_load_xml_eq.
      destruct (files w0 !! appcast_path self) as [[data| |]|];
        eexists _, _; (split; [reflexivity|]); repeat constructor. }
    intros root _.
    destruct (Etree.find "channel" root) as [channel|];
      [|apply fails_performing_raise].
    apply fails_performing_bind; [apply performs_lift|]. intros item1 [? Htitle].
    apply sub_element_text_tag in Htitle. simpl in Htitle.
    apply fails_performing_bind; [apply performs_strftime_now|]. intros pub_date _.
    apply fails_performing_bind; [apply performs_lift|]. intros item2 [? HpubDate].
    apply sub_element_text_tag in HpubDate.
    apply fails_performing_bind.
    { intros w0. rewrite calculate_file_hash_eq.
      eexists _, _. split; [reflexivity|]. repeat constructor. }
    intros file_hash _.
    apply fails_performing_bind; [apply performs_lift|]. intros item3 [? Henclosure].
    apply create_enclosure_tag in Henclosure.
    apply fails_performing_bind; [apply performs_lift|]. intros item4 [? Hversions].
    apply (for_each_invariant (λ item, Etree.tag item = "item"%string)) in Hversions;
      [|intros ???; by intros ->%sub_element_text_tag|congruence].
    apply fails_performing_bind; [apply performs_lift|]. intros notes _.
    apply fails_performing_bind; [apply performs_lift|]. intros item5 [? Hdescription].
    apply sub_element_text_tag in Hdescription.
    destruct (reorder_items_raises (Etree.append channel item5)) as (e & -> & _).
    { rewrite findall_append by congruence. by destruct (Etree.findall _ _). }
    apply fails_performing_raise. }
  destruct (Hbody w) as (e & evs & Hrun & Hevs).
  exists e, evs. unfold add_update, wrap_errors. by rewrite Hrun.
Qed.

(** ** [main] *)

